(** * Calendar ingestion, caching and grid layout of the TRMNL google-calendar recipe

    A shallow embedding of

    - [getData.ts], in the revision with the iCal feed adapter and the week
      filter: [fetchICalEvents], [getWeekBounds], [fetchCalendarEvents],
      [fetchCalendarDataNoCache], [getCachedCalendarData], [getData]
      ([getWeekBounds] and [fetchCalendarEvents] are the same in the revision
      without the feed);
    - [google-calendar.tsx]: [parseEventDate], [getEventStyle].

    Modelling conventions.

    - A JavaScript string is a [string] of 8-bit code units; [length] is the
      JavaScript [length].
    - A [Date] is its time value, milliseconds since the epoch, as a [Z]; an
      invalid [Date] (time value NaN) is [None].  Local time is UTC shifted
      by a fixed number of milliseconds [tza]: one local-time frame, no
      daylight-saving transitions.
    - A number that may be NaN is an [option Z] with [None] for NaN.
    - [async] functions are computations over an explicit world (the clock,
      the log of network requests, the console, the data cache) that either
      return a value or throw. *)

From Stdlib Require Import ZArith List String Ascii Bool Lia.
From Stdlib Require Import DecimalString.
Import ListNotations.

Local Open Scope string_scope.
Local Open Scope Z_scope.

(* ================================================================== *)
(** * JavaScript string primitives                                      *)
(* ================================================================== *)

Module JsString.

(** [String.prototype.length], as a [Z]. *)
Definition len (s : string) : Z := Z.of_nat (String.length s).

(** Drop the first [n] code units. *)
Fixpoint drop (n : nat) (s : string) : string :=
  match n, s with
  | O, _ => s
  | S _, EmptyString => EmptyString
  | S n', String _ s' => drop n' s'
  end.

(** [s.substring(a, b)] for [a <= b]; both ends are clamped to the length. *)
Definition substring (a b : nat) (s : string) : string :=
  String.substring a (b - a) s.

(** [s.startsWith(p)]. *)
Definition startsWith (p s : string) : bool := String.prefix p s.

(** [hay.includes(needle)]. *)
Fixpoint includes (needle hay : string) : bool :=
  startsWith needle hay ||
  match hay with
  | EmptyString => false
  | String _ hay' => includes needle hay'
  end.

(** [hay.indexOf(needle)]: the first index where [needle] starts, or -1. *)
Fixpoint indexOfFrom (i : Z) (needle hay : string) : Z :=
  if startsWith needle hay then i
  else match hay with
       | EmptyString => -1
       | String _ hay' => indexOfFrom (i + 1) needle hay'
       end.

Definition indexOf (needle hay : string) : Z := indexOfFrom 0 needle hay.

(** [s.split(sep)] for a non-empty separator: the pieces between the
    non-overlapping occurrences of [sep], scanned from the left.  [skip]
    counts the code units of a matched separator still to be passed over
    and [cur] is the current piece, reversed. *)
Fixpoint rev_append (r s : string) : string :=
  match r with
  | EmptyString => s
  | String c r' => rev_append r' (String c s)
  end.

Fixpoint splitFrom (sep : string) (skip : nat) (cur : string) (s : string)
  : list string :=
  match s with
  | EmptyString => [rev_append cur EmptyString]
  | String c s' =>
      match skip with
      | S k => splitFrom sep k cur s'
      | O =>
          if startsWith sep s
          then rev_append cur EmptyString
                 :: splitFrom sep (String.length sep - 1) EmptyString s'
          else splitFrom sep O (String c cur) s'
      end
  end.

Definition split (sep s : string) : list string := splitFrom sep O EmptyString s.

(** White space removed by [trim] (code units below 256): TAB, LF, VT, FF,
    CR, SPACE and NBSP. *)
Definition isWhiteSpace (c : ascii) : bool :=
  let n := nat_of_ascii c in
  (Nat.eqb n 9 || Nat.eqb n 10 || Nat.eqb n 11 || Nat.eqb n 12
   || Nat.eqb n 13 || Nat.eqb n 32 || Nat.eqb n 160)%bool.

Fixpoint trimStart (s : string) : string :=
  match s with
  | EmptyString => EmptyString
  | String c s' => if isWhiteSpace c then trimStart s' else s
  end.

(** [trimEnd] keeps a character when it is not white space or when
    something is kept after it. *)
Fixpoint trimEnd (s : string) : string :=
  match s with
  | EmptyString => EmptyString
  | String c s' =>
      match trimEnd s' with
      | EmptyString => if isWhiteSpace c then EmptyString else String c EmptyString
      | t => String c t
      end
  end.

Definition trim (s : string) : string := trimEnd (trimStart s).

(** Line terminators, the characters [.] does not match in a regular
    expression (code units below 256): LF and CR. *)
Definition isLineTerminator (c : ascii) : bool :=
  let n := nat_of_ascii c in (Nat.eqb n 10 || Nat.eqb n 13)%bool.

(** The longest prefix of characters matched by [.]: what a greedy [(.+)]
    captures when it is the end of the pattern. *)
Fixpoint dotRun (s : string) : string :=
  match s with
  | EmptyString => EmptyString
  | String c s' => if isLineTerminator c then EmptyString else String c (dotRun s')
  end.

(** [s.match(/LIT[CLS](.+)/)]: the capture group of the leftmost match of
    the literal [lit], one character of the class [cls], and one or more
    characters other than line terminators; [None] when nothing matches. *)
Fixpoint matchField (lit : string) (cls : ascii -> bool) (s : string)
  : option string :=
  let here :=
    if startsWith lit s then
      match drop (String.length lit) s with
      | String c rest =>
          if cls c then
            match dotRun rest with
            | EmptyString => None
            | cap => Some cap
            end
          else None
      | EmptyString => None
      end
    else None in
  match here with
  | Some cap => Some cap
  | None =>
      match s with
      | EmptyString => None
      | String _ s' => matchField lit cls s'
      end
  end.

Definition isColon (c : ascii) : bool := Ascii.eqb c ":".
Definition isSemiOrColon (c : ascii) : bool := (Ascii.eqb c ";" || Ascii.eqb c ":")%bool.

(** [s.replace(/^[^:]*:/, "")]: drop everything up to and including the
    first colon; a string without a colon is unchanged. *)
Fixpoint afterFirstColon (s : string) : option string :=
  match s with
  | EmptyString => None
  | String c s' => if isColon c then Some s' else afterFirstColon s'
  end.

Definition stripToColon (s : string) : string :=
  match afterFirstColon s with
  | Some rest => rest
  | None => s
  end.

Definition isDigit (c : ascii) : bool :=
  let n := nat_of_ascii c in (Nat.leb 48 n && Nat.leb n 57)%bool.

(** [Number(s)] on a string of decimal digits. *)
Fixpoint digitsValue (acc : Z) (s : string) : Z :=
  match s with
  | EmptyString => acc
  | String c s' => digitsValue (10 * acc + (Z.of_nat (nat_of_ascii c) - 48)) s'
  end.

Definition allDigits (s : string) : bool :=
  forallb isDigit (list_ascii_of_string s).

(** [n.toString()] / template interpolation of an integer. *)
Definition ofZ (n : Z) : string := NilZero.string_of_int (Z.to_int n).

Definition digitChar (d : Z) : ascii := ascii_of_nat (48 + Z.to_nat d).

(** The [w] low decimal digits of [n], zero padded. *)
Fixpoint padDigits (w : nat) (n : Z) : string :=
  match w with
  | O => EmptyString
  | S w' => padDigits w' (n / 10) ++ String (digitChar (n mod 10)) EmptyString
  end.

End JsString.

(* ================================================================== *)
(** * The [Date] built-in                                               *)
(* ================================================================== *)

Module JsDate.

Definition msPerSecond : Z := 1000.
Definition msPerMinute : Z := 60000.
Definition msPerHour : Z := 3600000.
Definition msPerDay : Z := 86400000.

(** ECMAScript [Day(t)], [TimeWithinDay(t)] and [WeekDay(t)]
    (0 = Sunday ... 6 = Saturday; the epoch was a Thursday). *)
Definition Day (t : Z) : Z := t / msPerDay.
Definition TimeWithinDay (t : Z) : Z := t mod msPerDay.
Definition WeekDay (t : Z) : Z := (Day t + 4) mod 7.

Definition HourFromTime (t : Z) : Z := (t / msPerHour) mod 24.
Definition MinFromTime (t : Z) : Z := (t / msPerMinute) mod 60.
Definition SecFromTime (t : Z) : Z := (t / msPerSecond) mod 60.
Definition msFromTime (t : Z) : Z := t mod msPerSecond.

(** The proleptic Gregorian calendar on day numbers: the civil date
    (year, month 1..12, day of month) of a day number, and back. *)
Record Civil := mkCivil { c_year : Z; c_month : Z; c_day : Z }.

Definition civilFromDays (n : Z) : Civil :=
  let z := n + 719468 in
  let era := z / 146097 in
  let doe := z - era * 146097 in
  let yoe := (doe - doe / 1460 + doe / 36524 - doe / 146096) / 365 in
  let doy := doe - (365 * yoe + yoe / 4 - yoe / 100) in
  let mp := (5 * doy + 2) / 153 in
  let d := doy - (153 * mp + 2) / 5 + 1 in
  let m := if mp <? 10 then mp + 3 else mp - 9 in
  mkCivil (yoe + era * 400 + (if m <=? 2 then 1 else 0)) m d.

Definition daysFromCivil (y m d : Z) : Z :=
  let y' := y - (if m <=? 2 then 1 else 0) in
  let era := y' / 400 in
  let yoe := y' - era * 400 in
  let doy := (153 * (if 2 <? m then m - 3 else m + 9) + 2) / 5 + d - 1 in
  let doe := yoe * 365 + yoe / 4 - yoe / 100 + doy in
  era * 146097 + doe - 719468.

Definition YearFromTime (t : Z) : Z := c_year (civilFromDays (Day t)).
(** [MonthFromTime] is 0-based, as in ECMAScript. *)
Definition MonthFromTime (t : Z) : Z := c_month (civilFromDays (Day t)) - 1.
Definition DateFromTime (t : Z) : Z := c_day (civilFromDays (Day t)).

(** [MakeDay(year, month, date)]: months outside 0..11 carry into the
    year, and [date] counts from the first of that month, with overflow
    in either direction. *)
Definition MakeDay (year month date : Z) : Z :=
  daysFromCivil (year + month / 12) (month mod 12 + 1) 1 + date - 1.

Definition MakeTime (h m s ms : Z) : Z :=
  h * msPerHour + m * msPerMinute + s * msPerSecond + ms.

Definition MakeDate (day time : Z) : Z := day * msPerDay + time.

Section Local.
(** Offset of local time from UTC, in milliseconds. *)
Variable tza : Z.

Definition LocalTime (t : Z) : Z := t + tza.
Definition UTC (t : Z) : Z := t - tza.

Definition getDay (d : Z) : Z := WeekDay (LocalTime d).
Definition getDate (d : Z) : Z := DateFromTime (LocalTime d).
Definition getMonth (d : Z) : Z := MonthFromTime (LocalTime d).
Definition getFullYear (d : Z) : Z := YearFromTime (LocalTime d).
Definition getHours (d : Z) : Z := HourFromTime (LocalTime d).
Definition getMinutes (d : Z) : Z := MinFromTime (LocalTime d).

(** [d.setDate(date)]: the new time value. *)
Definition setDate (d : Z) (date : Z) : Z :=
  let t := LocalTime d in
  UTC (MakeDate (MakeDay (YearFromTime t) (MonthFromTime t) date)
                (TimeWithinDay t)).

(** [d.setHours(h, m, s, ms)]: the new time value. *)
Definition setHours (d : Z) (h m s ms : Z) : Z :=
  let t := LocalTime d in
  UTC (MakeDate (Day t) (MakeTime h m s ms)).

(** [new Date(year, monthIndex, day)]: local midnight of that civil date;
    a year in 0..99 means 1900 + year. *)
Definition ofYMD (year monthIndex day : Z) : Z :=
  let yr := if (0 <=? year) && (year <=? 99) then 1900 + year else year in
  UTC (MakeDate (MakeDay yr monthIndex day) 0).
End Local.

(** [d.toISOString()]: UTC fields; years outside 0..9999 use the
    expanded form with a sign and six digits. *)
Definition isoYear (y : Z) : string :=
  if (0 <=? y) && (y <=? 9999) then JsString.padDigits 4 y
  else if y <? 0 then "-" ++ JsString.padDigits 6 (- y)
       else "+" ++ JsString.padDigits 6 y.

Definition toISOString (d : Z) : string :=
  isoYear (YearFromTime d)
    ++ "-" ++ JsString.padDigits 2 (MonthFromTime d + 1)
    ++ "-" ++ JsString.padDigits 2 (DateFromTime d)
    ++ "T" ++ JsString.padDigits 2 (HourFromTime d)
    ++ ":" ++ JsString.padDigits 2 (MinFromTime d)
    ++ ":" ++ JsString.padDigits 2 (SecFromTime d)
    ++ "." ++ JsString.padDigits 3 (msFromTime d)
    ++ "Z".

End JsDate.


(* ================================================================== *)
(** * Data model ([getData.ts], [google-calendar.tsx])                  *)
(* ================================================================== *)

(** [interface CalendarEvent]. *)
Record CalendarEvent := mkCalendarEvent {
  id : string;
  title : string;
  start : string;
  end_ : string;
  allDay : bool
}.

(** [interface CalendarParams]; an absent field is [None]. *)
Record CalendarParams := mkCalendarParams {
  calendarId : option string;
  apiKey : option string;
  icalUrl : option string;
  maxResults : option Z
}.

(** The [start] and [end] objects of a Google Calendar item. *)
Record GoogleTime := mkGoogleTime {
  dateTime : option string;
  date : option string
}.

(** [interface GoogleCalendarEvent]. *)
Record GoogleCalendarEvent := mkGoogleCalendarEvent {
  g_id : string;
  summary : option string;
  g_start : GoogleTime;
  g_end : GoogleTime
}.

(** [interface GoogleCalendarResponse]. *)
Record GoogleCalendarResponse := mkGoogleCalendarResponse {
  items : option (list GoogleCalendarEvent)
}.

(** What [getData] hands to the renderer. *)
Record CalendarData := mkCalendarData {
  events : list CalendarEvent;
  startDate : string
}.

(** The pair of ISO strings returned by [getWeekBounds]. *)
Record WeekBounds := mkWeekBounds {
  timeMin : string;
  timeMax : string
}.

(** The result of [getEventStyle]; a field is [None] when it is NaN. *)
Record EventStyle := mkEventStyle {
  top : option Z;
  height : option Z
}.

(* ------------------------------------------------------------------ *)
(** ** Truthiness and [||]                                              *)
(* ------------------------------------------------------------------ *)

(** A string-or-undefined value is truthy when it is a non-empty string. *)
Definition truthy (v : option string) : bool :=
  match v with
  | Some s => negb (String.eqb s "")
  | None => false
  end.

(** The string held by a truthy value. *)
Definition valueOf (v : option string) : string :=
  match v with
  | Some s => s
  | None => ""
  end.

(** Truthiness of a string. *)
Definition isNonEmpty (s : string) : bool := negb (String.eqb s "").

(** [a || b] on string-or-undefined values. *)
Definition orElse (a b : option string) : option string :=
  if truthy a then a else b.

(** [a || "literal"]. *)
Definition orDefault (a : option string) (d : string) : string :=
  match a with
  | Some s => if String.eqb s "" then d else s
  | None => d
  end.

(** [n || 50] on a number-or-undefined value: 0 is falsy. *)
Definition orNumber (n : option Z) (d : Z) : Z :=
  match n with
  | Some k => if k =? 0 then d else k
  | None => d
  end.

(** [params?.field]. *)
Definition field {A} (f : CalendarParams -> option A) (params : option CalendarParams)
  : option A :=
  match params with
  | Some p => f p
  | None => None
  end.

(* ------------------------------------------------------------------ *)
(** ** Numbers that may be NaN                                          *)
(* ------------------------------------------------------------------ *)

Module JsNum.
Definition num := option Z.
Definition lift2 (f : Z -> Z -> Z) (a b : num) : num :=
  match a, b with
  | Some x, Some y => Some (f x y)
  | _, _ => None
  end.
Definition add := lift2 Z.add.
Definition sub := lift2 Z.sub.
Definition mul := lift2 Z.mul.
(** [Math.max(a, b)]: NaN when either argument is NaN. *)
Definition max := lift2 Z.max.
(** [a >= b]: false when either side is NaN. *)
Definition geb (a b : num) : bool :=
  match a, b with
  | Some x, Some y => y <=? x
  | _, _ => false
  end.
(** [a <= b]: false when either side is NaN. *)
Definition leb (a b : num) : bool := geb b a.
End JsNum.

(* ================================================================== *)
(** * The iCal parser inside [fetchICalEvents]                          *)
(* ================================================================== *)

(** The local function [parseICalDate]. *)
Definition parseICalDate (dateStr : string) : string :=
  let dateStr := JsString.stripToColon dateStr in
  if JsString.len dateStr =? 8 then
    let year := JsString.substring 0 4 dateStr in
    let month := JsString.substring 4 6 dateStr in
    let day := JsString.substring 6 8 dateStr in
    year ++ "-" ++ month ++ "-" ++ day
  else
    let year := JsString.substring 0 4 dateStr in
    let month := JsString.substring 4 6 dateStr in
    let day := JsString.substring 6 8 dateStr in
    let hour := JsString.substring 9 11 dateStr in
    let minute := JsString.substring 11 13 dateStr in
    let second := JsString.substring 13 15 dateStr in
    year ++ "-" ++ month ++ "-" ++ day ++ "T" ++ hour ++ ":" ++ minute ++ ":" ++ second.

(** [block.substring(0, endIndex)] of the loop body; [None] when the block
    has no [END:VEVENT] (the first [continue]). *)
Definition eventDataOf (block : string) : option string :=
  let endIndex := JsString.indexOf "END:VEVENT" block in
  if endIndex =? -1 then None
  else Some (JsString.substring 0 (Z.to_nat endIndex) block).

(** The four regular-expression matches of the loop body. *)
Definition summaryMatch (eventData : string) : option string :=
  JsString.matchField "SUMMARY" JsString.isColon eventData.
Definition startMatch (eventData : string) : option string :=
  JsString.matchField "DTSTART" JsString.isSemiOrColon eventData.
Definition endMatch (eventData : string) : option string :=
  JsString.matchField "DTEND" JsString.isSemiOrColon eventData.
Definition uidMatch (eventData : string) : option string :=
  JsString.matchField "UID" JsString.isColon eventData.

(** One iteration of the [for] loop, for the block at index [i] of
    [eventBlocks]: the pushed event, or [None] when the iteration ends in
    [continue]. *)
Definition parseBlock (i : nat) (block : string) : option CalendarEvent :=
  match eventDataOf block with
  | None => None
  | Some eventData =>
      match startMatch eventData, endMatch eventData with
      | Some startCap, Some endCap =>
          let summary :=
            match summaryMatch eventData with
            | Some m => JsString.trim m
            | None => "Untitled Event"
            end in
          let startStr := JsString.trim startCap in
          let endStr := JsString.trim endCap in
          let uid :=
            match uidMatch eventData with
            | Some m => JsString.trim m
            | None => "event-" ++ JsString.ofZ (Z.of_nat i)
            end in
          let isAllDay := JsString.len startStr =? 8 in
          Some (mkCalendarEvent uid summary (parseICalDate startStr)
                                (parseICalDate endStr) isAllDay)
      | _, _ => None
      end
  end.

(** The loop over [eventBlocks[i]], [i] counting up from its first index. *)
Fixpoint parseBlocksFrom (i : nat) (blocks : list string) : list CalendarEvent :=
  match blocks with
  | [] => []
  | block :: rest =>
      match parseBlock i block with
      | Some e => e :: parseBlocksFrom (S i) rest
      | None => parseBlocksFrom (S i) rest
      end
  end.

(** [eventBlocks]: the document split at every [BEGIN:VEVENT]. *)
Definition eventBlocks (icalData : string) : list string :=
  JsString.split "BEGIN:VEVENT" icalData.

(** The events built from a fetched document: the loop starts at index 1,
    what precedes the first [BEGIN:VEVENT] is never looked at. *)
Definition parseICal (icalData : string) : list CalendarEvent :=
  parseBlocksFrom 1 (tl (eventBlocks icalData)).

(* ================================================================== *)
(** * The Google Calendar item mapping inside [fetchCalendarEvents]     *)
(* ================================================================== *)

Definition mapGoogleEvent (event : GoogleCalendarEvent) : CalendarEvent :=
  let isAllDay := truthy (date (g_start event)) in
  let start := orDefault (orElse (dateTime (g_start event)) (date (g_start event))) "" in
  let end_ := orDefault (orElse (dateTime (g_end event)) (date (g_end event))) "" in
  mkCalendarEvent (g_id event) (orDefault (summary event) "Untitled Event")
                  start end_ isAllDay.

(** The part of [fetchCalendarEvents] after [response.json()]. *)
Definition eventsOfResponse (data : GoogleCalendarResponse) : list CalendarEvent :=
  match items data with
  | None => []
  | Some [] => []
  | Some its => map mapGoogleEvent its
  end.

(* ================================================================== *)
(** * Effects: the world, exceptions and the computation monad          *)
(* ================================================================== *)

(** A thrown value: an [Error] object with its message, or anything else
    with its [String(...)] rendering. *)
Inductive Exn :=
| ErrorObj (message : string)
| Thrown (rendering : string).

(** [error instanceof Error ? error.message : String(error)]. *)
Definition errorMessageOf (error : Exn) : string :=
  match error with
  | ErrorObj message => message
  | Thrown rendering => rendering
  end.

(** The two outbound requests of the module: the feed GET with
    [Accept: text/calendar], and the GET of the events endpoint of a
    calendar with its query parameters, in the order they are appended. *)
Inductive Request :=
| GetICal (url : string)
| GetGoogleEvents (calendar : string) (query : list (string * string)).

(** What the adapters look at in a [Response]: [ok], [status], and the
    results of [text()] and [json()], each of which may reject. *)
Record Response := mkResponse {
  ok : bool;
  status : Z;
  text : Exn + string;
  json : Exn + GoogleCalendarResponse
}.

(** [fetch] rejects (network failure, or the render was aborted) or
    resolves to a response. *)
Inductive FetchOutcome :=
| Rejected (error : Exn)
| Resolved (response : Response).

(** An entry of the data cache: when it was stored, and the value. *)
Record CacheEntry := mkCacheEntry {
  storedAt : Z;
  cached : CalendarData
}.

(** The world the computations run in. *)
Record World := mkWorld {
  ticks : nat;                       (* clock reads so far *)
  requests : list Request;           (* outbound requests so far, oldest first *)
  console : list string;             (* console lines so far, oldest first *)
  cache : list (option CalendarParams * CacheEntry)   (* the data cache *)
}.

Inductive Outcome (A : Type) :=
| Return (a : A)
| Throw (error : Exn).
Arguments Return {A} a.
Arguments Throw {A} error.

(** An [async] function body: runs in a world, returns or throws. *)
Definition M (A : Type) : Type := World -> Outcome A * World.

Definition ret {A} (a : A) : M A := fun w => (Return a, w).

Definition throw {A} (error : Exn) : M A := fun w => (Throw error, w).

Definition bind {A B} (c : M A) (k : A -> M B) : M B :=
  fun w =>
    match c w with
    | (Return a, w') => k a w'
    | (Throw error, w') => (Throw error, w')
    end.

(** [try { c } catch (error) { handler }]. *)
Definition tryCatch {A} (c : M A) (handler : Exn -> M A) : M A :=
  fun w =>
    match c w with
    | (Return a, w') => (Return a, w')
    | (Throw error, w') => handler error w'
    end.

Declare Scope js_scope.
Delimit Scope js_scope with js.
Notation "x <- c ;; k" := (bind c (fun x => k))
  (at level 61, c at next level, right associativity) : js_scope.
Notation "c ;;; k" := (bind c (fun _ => k))
  (at level 61, right associativity) : js_scope.

(** [console.log], [console.warn], [console.error]: one more line. *)
Definition consoleWrite (line : string) : M unit :=
  fun w => (Return tt, mkWorld (ticks w) (requests w) (console w ++ [line]) (cache w)).

(** Awaiting a promise that has already settled. *)
Definition await {A} (settled : Exn + A) : M A :=
  match settled with
  | inl error => throw error
  | inr a => ret a
  end.

Definition params_eq_dec (a b : option CalendarParams) : {a = b} + {a <> b}.
Proof. repeat decide equality. Defined.

Fixpoint cacheLookup (key : option CalendarParams)
  (entries : list (option CalendarParams * CacheEntry)) : option CacheEntry :=
  match entries with
  | [] => None
  | (k, e) :: rest => if params_eq_dec key k then Some e else cacheLookup key rest
  end.

(** The message test of both [catch] blocks: the render was aborted. *)
Definition isPrerenderAbort (errorMessage : string) : bool :=
  (JsString.includes "prerender" errorMessage
   || JsString.includes "HANGING_PROMISE_REJECTION" errorMessage
   || JsString.includes "prerender is complete" errorMessage)%bool.

(* ================================================================== *)
(** * [getData.ts]                                                      *)
(* ================================================================== *)

Section Pipeline.
Local Open Scope js_scope.

(** The platform the module runs on. *)
Variable tza : Z.                              (* local offset from UTC, ms *)
Variable DateParse : string -> option Z.       (* [new Date(string)]; [None] is Invalid Date *)
Variable clock : nat -> Z.                     (* the time shown at the n-th clock read *)
Variable net : list Request -> Request -> FetchOutcome. (* the network, given the requests made before *)
Variable GOOGLE_CALENDAR_ICAL_URL : option string.      (* [process.env] *)
Variable GOOGLE_CALENDAR_API_KEY : option string.

(** [new Date()] and [Date.now()]: read the clock. *)
Definition newDate : M Z :=
  fun w => (Return (clock (ticks w)),
            mkWorld (S (ticks w)) (requests w) (console w) (cache w)).

(** [await fetch(...)]: the request is logged, then settles. *)
Definition fetch (req : Request) : M Response :=
  fun w =>
    let w' := mkWorld (ticks w) (requests w ++ [req]) (console w) (cache w) in
    match net (requests w) req with
    | Rejected error => (Throw error, w')
    | Resolved response => (Return response, w')
    end.

(** The [Date] objects [weekStart] and [weekEnd] of [getWeekBounds]. *)
Definition weekStartOf (now : Z) : Z :=
  let day := JsDate.getDay tza now in
  let diff := JsDate.getDate tza now - day + (if day =? 0 then -6 else 1) in
  let weekStart := now in
  let weekStart := JsDate.setDate tza weekStart diff in
  JsDate.setHours tza weekStart 0 0 0 0.

Definition weekEndOf (now : Z) : Z :=
  let weekStart := weekStartOf now in
  let weekEnd := weekStart in
  let weekEnd := JsDate.setDate tza weekEnd (JsDate.getDate tza weekStart + 7) in
  JsDate.setHours tza weekEnd 23 59 59 999.

Definition weekBoundsAt (now : Z) : WeekBounds :=
  mkWeekBounds (JsDate.toISOString (weekStartOf now))
               (JsDate.toISOString (weekEndOf now)).

Definition getWeekBounds : M WeekBounds :=
  now <- newDate ;;
  ret (weekBoundsAt now).

(** The [catch] block shared by the two adapters, up to the console
    label: the adapter's result is [null] either way. *)
Definition adapterCatch (label : string) (error : Exn)
  : M (option (list CalendarEvent)) :=
  let errorMessage := errorMessageOf error in
  if isPrerenderAbort errorMessage then ret None
  else consoleWrite (label ++ " " ++ errorMessage) ;;; ret None.

Definition fetchICalEvents (icalUrl : string) : M (option (list CalendarEvent)) :=
  tryCatch
    (response <- fetch (GetICal icalUrl) ;;
     if negb (ok response) then
       throw (ErrorObj ("iCal fetch responded with status: "
                          ++ JsString.ofZ (status response)))
     else
       icalData <- await (text response) ;;
       ret (Some (parseICal icalData)))
    (adapterCatch "Error fetching iCal events:").

Definition fetchCalendarEvents (calendarId apiKey : string) (maxResults : Z)
  : M (option (list CalendarEvent)) :=
  tryCatch
    (bounds <- getWeekBounds ;;
     response <- fetch (GetGoogleEvents calendarId
                          [("key", apiKey);
                           ("timeMin", timeMin bounds);
                           ("timeMax", timeMax bounds);
                           ("maxResults", JsString.ofZ maxResults);
                           ("singleEvents", "true");
                           ("orderBy", "startTime")]) ;;
     if negb (ok response) then
       throw (ErrorObj ("Google Calendar API responded with status: "
                          ++ JsString.ofZ (status response)))
     else
       data <- await (json response) ;;
       ret (Some (eventsOfResponse data)))
    (adapterCatch "Error fetching calendar events:").

(** The predicate of [events.filter(...)]: the start of the event,
    parsed by [new Date(event.start)], lies in the closed window. *)
Definition inWeek (weekStart weekEnd : option Z) (event : CalendarEvent) : bool :=
  let eventStart := DateParse (start event) in
  (JsNum.geb eventStart weekStart && JsNum.leb eventStart weekEnd)%bool.

(** "Filter events to current week only", as both paths do it. *)
Definition filterToWeek (bounds : WeekBounds) (evs : list CalendarEvent)
  : list CalendarEvent :=
  let weekStart := DateParse (timeMin bounds) in
  let weekEnd := DateParse (timeMax bounds) in
  filter (inWeek weekStart weekEnd) evs.

(** The four resolved configuration values both paths start with. *)
Definition resolvedIcalUrl (params : option CalendarParams) : option string :=
  orElse (field icalUrl params) GOOGLE_CALENDAR_ICAL_URL.
Definition resolvedCalendarId (params : option CalendarParams) : string :=
  orDefault (field calendarId params) "primary".
Definition resolvedApiKey (params : option CalendarParams) : string :=
  orDefault (orElse (field apiKey params) GOOGLE_CALENDAR_API_KEY) "".
Definition resolvedMaxResults (params : option CalendarParams) : Z :=
  orNumber (field maxResults params) 50.

Definition fetchCalendarDataNoCache (params : option CalendarParams) : M CalendarData :=
  let icalUrl := resolvedIcalUrl params in
  let calendarId := resolvedCalendarId params in
  let apiKey := resolvedApiKey params in
  let maxResults := resolvedMaxResults params in
  evs <- (if truthy icalUrl then fetchICalEvents (valueOf icalUrl)
          else if isNonEmpty apiKey
               then fetchCalendarEvents calendarId apiKey maxResults
               else consoleWrite
                      "Neither iCal URL nor Google Calendar API key provided. Set GOOGLE_CALENDAR_ICAL_URL or GOOGLE_CALENDAR_API_KEY environment variable."
                    ;;; ret None) ;;
  match evs with
  | None =>
      now <- newDate ;;
      ret (mkCalendarData [] (JsDate.toISOString now))
  | Some evs =>
      bounds <- getWeekBounds ;;
      ret (mkCalendarData (filterToWeek bounds evs) (timeMin bounds))
  end.

(** The function wrapped by [unstable_cache]. *)
Definition computeCalendarData (params : option CalendarParams) : M CalendarData :=
  let icalUrl := resolvedIcalUrl params in
  let calendarId := resolvedCalendarId params in
  let apiKey := resolvedApiKey params in
  let maxResults := resolvedMaxResults params in
  evs <- (if truthy icalUrl then fetchICalEvents (valueOf icalUrl)
          else if isNonEmpty apiKey
               then fetchCalendarEvents calendarId apiKey maxResults
               else throw (ErrorObj "No calendar source provided - skip caching")) ;;
  match evs with
  | None => throw (ErrorObj "Empty or invalid data - skip caching")
  | Some evs =>
      bounds <- getWeekBounds ;;
      ret (mkCalendarData (filterToWeek bounds evs) (timeMin bounds))
  end.

(** [revalidate: 300], in milliseconds. *)
Definition revalidateMs : Z := 300 * 1000.

(** The stored value for [params], when there is one younger than
    [revalidate] seconds at time [now]. *)
Definition cacheRead (params : option CalendarParams) (now : Z)
  : M (option CalendarData) :=
  fun w =>
    match cacheLookup params (cache w) with
    | Some entry =>
        if now - storedAt entry <? revalidateMs
        then (Return (Some (cached entry)), w)
        else (Return None, w)
    | None => (Return None, w)
    end.

Definition cacheStore (params : option CalendarParams) (now : Z) (v : CalendarData)
  : M unit :=
  fun w =>
    (Return tt, mkWorld (ticks w) (requests w) (console w)
                        ((params, mkCacheEntry now v) :: cache w)).

(** [unstable_cache(fn, keyParts, {tags, revalidate})] of [next/cache],
    as far as this module relies on it: a call with arguments that have an
    entry younger than [revalidate] seconds returns the stored value
    without running [fn]; otherwise [fn] runs, and its value is stored
    when it returns, while a throw is passed on and stores nothing. *)
Definition unstable_cache (fn : option CalendarParams -> M CalendarData)
  (params : option CalendarParams) : M CalendarData :=
  now <- newDate ;;
  hit <- cacheRead params now ;;
  match hit with
  | Some v => ret v
  | None =>
      v <- fn params ;;
      cacheStore params now v ;;;
      ret v
  end.

Definition getCachedCalendarData : option CalendarParams -> M CalendarData :=
  unstable_cache computeCalendarData.

Definition getData (params : option CalendarParams) : M CalendarData :=
  tryCatch
    (getCachedCalendarData params)
    (fun error =>
       consoleWrite ("Cache skipped or error: " ++ errorMessageOf error) ;;;
       fetchCalendarDataNoCache params).

End Pipeline.

(* ================================================================== *)
(** * [google-calendar.tsx]: the time grid                              *)
(* ================================================================== *)

(** [dateString.match(/^\d{4}-\d{2}-\d{2}$/)]. *)
Definition matchesDateOnly (dateString : string) : bool :=
  ((JsString.len dateString =? 10)
   && JsString.allDigits (JsString.substring 0 4 dateString)
   && String.eqb (JsString.substring 4 5 dateString) "-"
   && JsString.allDigits (JsString.substring 5 7 dateString)
   && String.eqb (JsString.substring 7 8 dateString) "-"
   && JsString.allDigits (JsString.substring 8 10 dateString))%bool.

Section Grid.
Variable tza : Z.
Variable DateParse : string -> option Z.

(** "Parse date string to local Date": a date-only string is local
    midnight of that date, anything else goes to [new Date(string)]. *)
Definition parseEventDate (dateString : string) : option Z :=
  if ((JsString.len dateString =? 10) && matchesDateOnly dateString)%bool then
    let year := JsString.digitsValue 0 (JsString.substring 0 4 dateString) in
    let month := JsString.digitsValue 0 (JsString.substring 5 7 dateString) in
    let day := JsString.digitsValue 0 (JsString.substring 8 10 dateString) in
    Some (JsDate.ofYMD tza year (month - 1) day)
  else DateParse dateString.

(** [isSameDay(date1, date2)]; a field of an invalid date is NaN and
    equals nothing. *)
Definition isSameDay (date1 date2 : option Z) : bool :=
  match date1, date2 with
  | Some d1, Some d2 =>
      ((JsDate.getFullYear tza d1 =? JsDate.getFullYear tza d2)
       && (JsDate.getMonth tza d1 =? JsDate.getMonth tza d2)
       && (JsDate.getDate tza d1 =? JsDate.getDate tza d2))%bool
  | _, _ => false
  end.

(** The half-hour slot of a time of day, counted from 7:00 AM. *)
Definition slotOf (hour minute : JsNum.num) : JsNum.num :=
  JsNum.add (JsNum.mul (JsNum.sub hour (Some 7)) (Some 2))
            (Some (if JsNum.geb minute (Some 30) then 1 else 0)).

(** "Calculate event position and height". *)
Definition getEventStyle (event : CalendarEvent) : EventStyle :=
  let start_ := parseEventDate (start event) in
  let end' := parseEventDate (end_ event) in
  let startHour := option_map (JsDate.getHours tza) start_ in
  let startMinute := option_map (JsDate.getMinutes tza) start_ in
  let endHour := option_map (JsDate.getHours tza) end' in
  let endMinute := option_map (JsDate.getMinutes tza) end' in
  let startOffset := slotOf startHour startMinute in
  let endOffset := slotOf endHour endMinute in
  mkEventStyle startOffset
               (JsNum.max (Some 1) (JsNum.sub endOffset startOffset)).

End Grid.

(* ================================================================== *)
(** * An instance of [new Date(string)]                                 *)
(* ================================================================== *)

(** The ECMAScript date-time string format, [YYYY-MM-DD] (UTC) and
    [YYYY-MM-DDTHH:mm:ss], with an optional [.sss] and an optional [Z] or
    [+HH:mm] / [-HH:mm]; without an offset a date-time is local time.  The
    parser of an engine accepts other, engine-defined strings as well; the
    general results take the parser as a parameter and this instance serves
    the worked examples. *)
Module IsoDate.

Definition two (a : nat) (s : string) : option Z :=
  let f := JsString.substring a (a + 2) s in
  if ((Nat.eqb (String.length f) 2) && JsString.allDigits f)%bool
  then Some (JsString.digitsValue 0 f) else None.

Definition four (a : nat) (s : string) : option Z :=
  let f := JsString.substring a (a + 4) s in
  if ((Nat.eqb (String.length f) 4) && JsString.allDigits f)%bool
  then Some (JsString.digitsValue 0 f) else None.

Definition three (a : nat) (s : string) : option Z :=
  let f := JsString.substring a (a + 3) s in
  if ((Nat.eqb (String.length f) 3) && JsString.allDigits f)%bool
  then Some (JsString.digitsValue 0 f) else None.

Definition charIs (a : nat) (c : string) (s : string) : bool :=
  String.eqb (JsString.substring a (a + 1) s) c.

(** The offset suffix: [Some None] for local time, [Some (Some ms)] for
    an explicit offset, [None] when malformed. *)
Definition zone (s : string) : option (option Z) :=
  if String.eqb s "" then Some None
  else if String.eqb s "Z" then Some (Some 0)
  else if (Nat.eqb (String.length s) 6 && charIs 3 ":" s)%bool then
    match two 1 s, two 4 s with
    | Some h, Some m =>
        let off := h * JsDate.msPerHour + m * JsDate.msPerMinute in
        if charIs 0 "+" s then Some (Some off)
        else if charIs 0 "-" s then Some (Some (- off))
        else None
    | _, _ => None
    end
  else None.

Definition inRange (lo x hi : Z) : bool := ((lo <=? x) && (x <=? hi))%bool.

Definition parse (tza : Z) (s : string) : option Z :=
  match four 0 s, two 5 s, two 8 s with
  | Some y, Some mo, Some d =>
      if (charIs 4 "-" s && charIs 7 "-" s && inRange 1 mo 12 && inRange 1 d 31)%bool
      then
        let day := JsDate.MakeDay y (mo - 1) d in
        if Nat.eqb (String.length s) 10 then Some (JsDate.MakeDate day 0)
        else
          match two 11 s, two 14 s, two 17 s with
          | Some h, Some mi, Some sec =>
              if (charIs 10 "T" s && charIs 13 ":" s && charIs 16 ":" s
                  && inRange 0 h 23 && inRange 0 mi 59 && inRange 0 sec 59)%bool
              then
                let '(ms, rest) :=
                  if charIs 19 "." s then
                    match three 20 s with
                    | Some ms => (Some ms, JsString.drop 23 s)
                    | None => (None, "")
                    end
                  else (Some 0, JsString.drop 19 s) in
                match ms, zone rest with
                | Some ms, Some z =>
                    let t := JsDate.MakeDate day (JsDate.MakeTime h mi sec ms) in
                    Some (match z with
                          | Some off => t - off
                          | None => JsDate.UTC tza t
                          end)
                | _, _ => None
                end
              else None
          | _, _, _ => None
          end
      else None
  | _, _, _ => None
  end.

End IsoDate.

(* ================================================================== *)
(** * Vocabulary of the statements                                      *)
(* ================================================================== *)

(** The number of days [weekStart.setDate(diff)] goes back from today. *)
Definition daysBack (day : Z) : Z := if day =? 0 then 6 else day - 1.

(** The request [fetchCalendarEvents] sends when the clock shows [now]. *)
Definition eventsRequest (tza : Z) (calendarId apiKey : string) (maxResults : Z)
  (now : Z) : Request :=
  GetGoogleEvents calendarId
    [("key", apiKey);
     ("timeMin", timeMin (weekBoundsAt tza now));
     ("timeMax", timeMax (weekBoundsAt tza now));
     ("maxResults", JsString.ofZ maxResults);
     ("singleEvents", "true");
     ("orderBy", "startTime")].

(** The world before anything has happened. *)
Definition emptyWorld : World := mkWorld 0 [] [] [].

(** A timed event running from [from] to [to]. *)
Definition timedEvent (from to : string) : CalendarEvent :=
  mkCalendarEvent "event-1" "Untitled Event" from to false.

(** One hour east of UTC, in milliseconds. *)
Definition utcPlusOne : Z := 3600000.

(** Wednesday 2024-01-03 12:00:00 UTC and Sunday 2024-01-07 12:00:00 UTC. *)
Definition wednesdayNoon : Z := 1704283200000.
Definition sundayNoon : Z := 1704628800000.

(** The lines of a feed, each ended by CR LF. *)
Definition crlf : string := String (ascii_of_nat 13) (String (ascii_of_nat 10) "").

Fixpoint feedOfLines (lines : list string) : string :=
  match lines with
  | [] => ""
  | l :: rest => l ++ crlf ++ feedOfLines rest
  end.

(** A feed with an all-day event, an event without [DTEND], and a timed
    event without [UID]. *)
Definition sampleFeed : string :=
  feedOfLines
    ["BEGIN:VCALENDAR";
     "BEGIN:VEVENT"; "UID:a1"; "SUMMARY:New Year";
     "DTSTART:20240101"; "DTEND:20240102"; "END:VEVENT";
     "BEGIN:VEVENT"; "UID:b2"; "SUMMARY:Broken";
     "DTSTART:20240102T090000"; "END:VEVENT";
     "BEGIN:VEVENT"; "SUMMARY:Stand-up";
     "DTSTART:20240103T090000"; "DTEND:20240103T100000"; "END:VEVENT";
     "END:VCALENDAR"].

(** An all-day event written with the [VALUE=DATE] parameter. *)
Definition valueDateFeed : string :=
  feedOfLines
    ["BEGIN:VCALENDAR";
     "BEGIN:VEVENT"; "UID:c3"; "SUMMARY:Holiday";
     "DTSTART;VALUE=DATE:20240101"; "DTEND;VALUE=DATE:20240102"; "END:VEVENT";
     "END:VCALENDAR"].

(** A feed without events. *)
Definition emptyFeed : string :=
  feedOfLines ["BEGIN:VCALENDAR"; "VERSION:2.0"; "END:VCALENDAR"].

(** A network that is down, a feed server that answers 503, a feed server
    that serves [doc], and an events endpoint that answers [data]. *)
Definition netDown : list Request -> Request -> FetchOutcome :=
  fun _ _ => Rejected (ErrorObj "fetch failed").

Definition netUnavailable : list Request -> Request -> FetchOutcome :=
  fun _ _ => Resolved (mkResponse false 503 (inr "Service Unavailable")
                                  (inl (ErrorObj "Unexpected token S in JSON"))).

Definition netFeed (doc : string) : list Request -> Request -> FetchOutcome :=
  fun _ _ => Resolved (mkResponse true 200 (inr doc)
                                  (inl (ErrorObj "Unexpected token B in JSON"))).

Definition netEvents (data : GoogleCalendarResponse)
  : list Request -> Request -> FetchOutcome :=
  fun _ _ => Resolved (mkResponse true 200 (inr "{}") (inr data)).

(** Parameters that name a feed, and the clock stopped at Wednesday noon. *)
Definition feedParams : option CalendarParams :=
  Some (mkCalendarParams None None (Some "https://calendar.example/feed.ics") None).

Definition stoppedClock : nat -> Z := fun _ => wednesdayNoon.

(** The world after one more clock read. *)
Definition ticked (w : World) : World :=
  mkWorld (S (ticks w)) (requests w) (console w) (cache w).

(** The world after one more console line. *)
Definition logged (line : string) (w : World) : World :=
  mkWorld (ticks w) (requests w) (console w ++ [line]) (cache w).

(** The world after a value has been stored in the data cache. *)
Definition stored (params : option CalendarParams) (now : Z) (v : CalendarData)
  (w : World) : World :=
  mkWorld (ticks w) (requests w) (console w) ((params, mkCacheEntry now v) :: cache w).

(** What both paths return for the events of an adapter when the clock
    shows [now]: the events of the week and the start of the week. *)
Definition weekData (tza : Z) (DateParse : string -> option Z)
  (evs : list CalendarEvent) (now : Z) : CalendarData :=
  mkCalendarData (filterToWeek DateParse (weekBoundsAt tza now) evs)
                 (timeMin (weekBoundsAt tza now)).

(** What the uncached path returns without events. *)
Definition emptyData (now : Z) : CalendarData :=
  mkCalendarData [] (JsDate.toISOString now).

(** The uncached path after its adapter has returned [r]. *)
Definition uncachedResult (tza : Z) (DateParse : string -> option Z)
  (r : option (list CalendarEvent)) (now : Z) : CalendarData :=
  match r with
  | None => emptyData now
  | Some evs => weekData tza DateParse evs now
  end.

(** The two messages by which the cacheable path declines. *)
Definition noSourceError : Exn := ErrorObj "No calendar source provided - skip caching".
Definition noDataError : Exn := ErrorObj "Empty or invalid data - skip caching".

(** The console line of the uncached path without a source. *)
Definition noSourceWarning : string :=
  "Neither iCal URL nor Google Calendar API key provided. Set GOOGLE_CALENDAR_ICAL_URL or GOOGLE_CALENDAR_API_KEY environment variable.".

(** A [startDate] is well formed when it is the ISO string of an instant. *)
Definition isISOString (s : string) : Prop := exists t, s = JsDate.toISOString t.

(* ================================================================== *)
(** * [google-calendar.tsx]: the week, the rows and the lanes           *)
(* ================================================================== *)

(** A row of the time grid. *)
Record TimeSlot := mkTimeSlot {
  hour : Z;
  minute : Z
}.

(** "Time slots from 7:00 AM to 8:00 PM (every 30 minutes)": the outer
    loop runs over the hours 7 to 20, the inner one over the minutes 0 and
    30. *)
Definition timeSlots : list TimeSlot :=
  flat_map (fun hour => map (fun minute => mkTimeSlot hour minute) [0; 30])
           (map Z.of_nat (seq 7 14)).

(** "Format time slot label". *)
Definition formatTime (hour minute : Z) : string :=
  let period := if 12 <=? hour then "pm" else "am" in
  let displayHour := if 12 <? hour then hour - 12 else if hour =? 0 then 12 else hour in
  if minute =? 0 then JsString.ofZ displayHour ++ period else "".

Definition dayNames : list string := ["Sun"; "Mon"; "Tue"; "Wed"; "Thu"; "Fri"; "Sat"].

Definition rowHeight : Z := 20.

Section Week.
Variable tza : Z.
Variable DateParse : string -> option Z.

(** "Get the start of the week (Monday)"; [now] is what [new Date()]
    gives when no date is passed, and an invalid date stays invalid. *)
Definition getWeekStart (now : Z) (date : option string) : option Z :=
  let d := if truthy date then DateParse (valueOf date) else Some now in
  match d with
  | Some d =>
      let day := JsDate.getDay tza d in
      let diff := JsDate.getDate tza d - day + (if day =? 0 then -6 else 1) in
      Some (JsDate.setDate tza d diff)
  | None => None
  end.

(** "Generate 7 days starting from weekStart". *)
Definition weekDays (weekStart : option Z) : list (option Z) :=
  map (fun i =>
         match weekStart with
         | Some ws => Some (JsDate.setDate tza ws (JsDate.getDate tza ws + Z.of_nat i))
         | None => None
         end)
      (seq 0 7).

(** "Format day header (e.g., "Mon 3/17")"; the fields of an invalid date
    are [undefined] and NaN. *)
Definition formatDayHeader (date : option Z) : string :=
  match date with
  | Some d =>
      let dayName := nth (Z.to_nat (JsDate.getDay tza d)) dayNames "undefined" in
      let month := JsDate.getMonth tza d + 1 in
      let day := JsDate.getDate tza d in
      dayName ++ " " ++ JsString.ofZ month ++ "/" ++ JsString.ofZ day
  | None => "undefined NaN/NaN"
  end.

(** "Get events for a specific day". *)
Definition getEventsForDay (evs : list CalendarEvent) (date : option Z)
  : list CalendarEvent :=
  filter (fun event =>
            let eventStart := parseEventDate tza DateParse (start event) in
            isSameDay tza eventStart date)
         evs.

(** "Get all-day events for a specific day". *)
Definition getAllDayEvents (evs : list CalendarEvent) (date : option Z)
  : list CalendarEvent :=
  filter (fun event => allDay event) (getEventsForDay evs date).

(** "Get timed events for a specific day". *)
Definition getTimedEvents (evs : list CalendarEvent) (date : option Z)
  : list CalendarEvent :=
  filter (fun event => negb (allDay event)) (getEventsForDay evs date).

End Week.

(** The date the week of the grid is taken from: [startDate] when it is
    passed, the current time otherwise. *)
Definition dateOrNow (DateParse : string -> option Z) (now : Z) (date : option string)
  : option Z :=
  if truthy date then DateParse (valueOf date) else Some now.

(** Whether the start of an event falls on one of the seven local days
    that begin with the day of [weekStart]. *)
Definition startsInWeek (tza : Z) (DateParse : string -> option Z) (weekStart : Z)
  (event : CalendarEvent) : bool :=
  match parseEventDate tza DateParse (start event) with
  | Some t =>
      let offset := JsDate.Day (JsDate.LocalTime tza t)
                    - JsDate.Day (JsDate.LocalTime tza weekStart) in
      ((0 <=? offset) && (offset <? 7))%bool
  | None => false
  end.

(** The hours of a day. *)
Definition hoursOfDay : list Z := map Z.of_nat (seq 0 24).

(* ================================================================== *)
(** * [getData.ts] in the revision without the feed                     *)
(* ================================================================== *)

(** The revision of [getData.ts] that knows the remote API only: no
    [icalUrl], and no week filter.  [getWeekBounds] and [fetchCalendarEvents]
    are those above; the three functions below differ. *)
Module ApiOnly.
Section Pipeline.
Local Open Scope js_scope.

Variable tza : Z.
Variable clock : nat -> Z.
Variable net : list Request -> Request -> FetchOutcome.
Variable GOOGLE_CALENDAR_API_KEY : option string.

Definition fetchCalendarDataNoCache (params : option CalendarParams) : M CalendarData :=
  let calendarId := resolvedCalendarId params in
  let apiKey := resolvedApiKey GOOGLE_CALENDAR_API_KEY params in
  let maxResults := resolvedMaxResults params in
  if negb (isNonEmpty apiKey) then
    consoleWrite
      "Google Calendar API key not provided. Set GOOGLE_CALENDAR_API_KEY environment variable or pass apiKey parameter." ;;;
    now <- newDate clock ;;
    ret (mkCalendarData [] (JsDate.toISOString now))
  else
    evs <- fetchCalendarEvents tza clock net calendarId apiKey maxResults ;;
    match evs with
    | None =>
        now <- newDate clock ;;
        ret (mkCalendarData [] (JsDate.toISOString now))
    | Some evs =>
        bounds <- getWeekBounds tza clock ;;
        ret (mkCalendarData evs (timeMin bounds))
    end.

(** The function wrapped by [unstable_cache]. *)
Definition computeCalendarData (params : option CalendarParams) : M CalendarData :=
  let calendarId := resolvedCalendarId params in
  let apiKey := resolvedApiKey GOOGLE_CALENDAR_API_KEY params in
  let maxResults := resolvedMaxResults params in
  if negb (isNonEmpty apiKey) then
    throw (ErrorObj "API key not provided - skip caching")
  else
    evs <- fetchCalendarEvents tza clock net calendarId apiKey maxResults ;;
    match evs with
    | None => throw (ErrorObj "Empty or invalid data - skip caching")
    | Some evs =>
        bounds <- getWeekBounds tza clock ;;
        ret (mkCalendarData evs (timeMin bounds))
    end.

Definition getCachedCalendarData : option CalendarParams -> M CalendarData :=
  unstable_cache clock computeCalendarData.

Definition getData (params : option CalendarParams) : M CalendarData :=
  tryCatch
    (getCachedCalendarData params)
    (fun error =>
       consoleWrite ("Cache skipped or error: " ++ errorMessageOf error) ;;;
       fetchCalendarDataNoCache params).

End Pipeline.
End ApiOnly.

(* ================================================================== *)
(** * The image route: [GET], [renderRecipeImage], [renderFallbackImage] *)
(* ================================================================== *)

(** The route handler of the bitmap and PNG images.  What it imports
    ([buildRecipeElement], [renderRecipeOutputs], the default dimensions, the
    table of screens) is a parameter; a call of the logger is a console line
    that starts with the level; React's [cache] memoizes the two render
    functions, which does not show on functions of their arguments. *)

Module Route.

(** [s.endsWith(suffix)]. *)
Fixpoint endsWith (suffix s : string) : bool :=
  String.eqb s suffix ||
  match s with
  | EmptyString => false
  | String _ s' => endsWith suffix s'
  end.

(** [s.replace(/\.(bmp|png)$/, "")]: the leftmost position at which the
    rest of the string is [.bmp] or [.png] is where the match starts. *)
Fixpoint stripImageExtension (s : string) : string :=
  if (String.eqb s ".bmp" || String.eqb s ".png")%bool then ""
  else match s with
       | EmptyString => ""
       | String c s' => String c (stripImageExtension s')
       end.

(** The longest prefix of decimal digits. *)
Fixpoint digitPrefix (s : string) : string :=
  match s with
  | EmptyString => EmptyString
  | String c s' => if JsString.isDigit c then String c (digitPrefix s') else EmptyString
  end.

(** [parseInt(s, 10)]: leading white space is skipped, a sign is read,
    then the longest run of digits; without a digit the result is NaN. *)
Definition parseInt (s : string) : option Z :=
  let s := JsString.trimStart s in
  let '(sign, rest) :=
    match s with
    | String c s' =>
        if Ascii.eqb c "-" then (-1, s')
        else if Ascii.eqb c "+" then (1, s')
        else (1, s)
    | EmptyString => (1, s)
    end in
  match digitPrefix rest with
  | EmptyString => None
  | digits => Some (sign * JsString.digitsValue 0 digits)
  end.

(** A number in a template string. *)
Definition showNumber (n : option Z) : string :=
  match n with
  | Some k => JsString.ofZ k
  | None => "NaN"
  end.

Inductive Format := Png | Bitmap.

Definition formatName (format : Format) : string :=
  match format with
  | Png => "png"
  | Bitmap => "bitmap"
  end.

Definition formatNameUpper (format : Format) : string :=
  match format with
  | Png => "PNG"
  | Bitmap => "BITMAP"
  end.

(** A [Buffer]: its bytes. *)
Definition Buffer : Type := list Z.

(** The result of [renderRecipeOutputs], as far as the route reads it. *)
Record Renders := mkRenders {
  png : option Buffer;
  bitmap : option Buffer
}.

Definition bufferOf (format : Format) (renders : Renders) : option Buffer :=
  match format with
  | Png => png renders
  | Bitmap => bitmap renders
  end.

Inductive Body :=
| Bytes (bytes : Buffer)
| Text (text : string).

(** A [Response]: the status, the two headers the route sets, the body. *)
Record HttpResponse := mkHttpResponse {
  status : Z;
  contentType : string;
  contentLength : option string;
  body : Body
}.

(** What [GET] reads of the request: the [slug] route parameter and four
    query parameters, each [None] when absent. *)
Record RouteRequest := mkRouteRequest {
  slug : option (list string);
  widthParam : option string;
  heightParam : option string;
  grayscaleParam : option string;
  rotateParam : option string
}.

(** The constants [GET] computes before it renders. *)
Record Settings := mkSettings {
  bitmapPath : string;
  format : Format;
  imageContentType : string;
  recipeSlug : string;
  validWidth : Z;
  validHeight : Z;
  grayscaleLevels : option Z;
  rotateAngle : option Z;
  recipeId : string
}.

Section Handler.
Local Open Scope js_scope.

(** What the route imports. *)
Variable DEFAULT_IMAGE_WIDTH : Z.
Variable DEFAULT_IMAGE_HEIGHT : Z.
Variable screens : string -> bool.          (* whether [screens[slug]] is truthy *)
Variable Built : Type.                      (* what [buildRecipeElement] resolves to *)
Variable buildRecipeElement : string -> Exn + Built.

(** The argument of [renderRecipeOutputs]: the component is the one built
    for a recipe, with the dimensions added to its props, or the not-found
    screen; [rotate] is [None] when it is not passed. *)
Inductive ScreenToRender :=
| RecipeScreen (built : Built) (width height : Z)
| NotFoundScreen (slug : string).

Record RenderCall := mkRenderCall {
  call_slug : string;
  call_screen : ScreenToRender;
  imageWidth : Z;
  imageHeight : Z;
  formats : list Format;
  grayscale : option Z;
  rotate : option (option Z)
}.

Variable renderRecipeOutputs : RenderCall -> Exn + Renders.

(** [width > 0 ? width : DEFAULT], with [width] possibly NaN. *)
Definition positiveOr (n : option Z) (default : Z) : Z :=
  match n with
  | Some k => if 0 <? k then k else default
  | None => default
  end.

Definition settingsOf (req : RouteRequest) : Settings :=
  let slug := match slug req with Some s => s | None => ["not-found"] end in
  let bitmapPath := String.concat "/" slug in
  let isPng := endsWith ".png" bitmapPath in
  let format := if isPng then Png else Bitmap in
  let contentType := if isPng then "image/png" else "image/bmp" in
  let recipeSlug := stripImageExtension bitmapPath in
  let width := if truthy (widthParam req) then parseInt (valueOf (widthParam req))
               else Some DEFAULT_IMAGE_WIDTH in
  let height := if truthy (heightParam req) then parseInt (valueOf (heightParam req))
                else Some DEFAULT_IMAGE_HEIGHT in
  let validWidth := positiveOr width DEFAULT_IMAGE_WIDTH in
  let validHeight := positiveOr height DEFAULT_IMAGE_HEIGHT in
  let grayscaleLevels := if truthy (grayscaleParam req)
                         then parseInt (valueOf (grayscaleParam req)) else Some 2 in
  let autoRotate := if validHeight <? validWidth then 90 else 0 in
  let rotateAngle := if truthy (rotateParam req)
                     then parseInt (valueOf (rotateParam req)) else Some autoRotate in
  let recipeId := if screens recipeSlug then recipeSlug else "simple-text" in
  mkSettings bitmapPath format contentType recipeSlug validWidth validHeight
             grayscaleLevels rotateAngle recipeId.

(** The response both functions build from a buffer. *)
Definition imageResponse (contentType : string) (buffer : Buffer) : HttpResponse :=
  mkHttpResponse 200 contentType (Some (JsString.ofZ (Z.of_nat (List.length buffer))))
                 (Bytes buffer).

Definition renderRecipeImage (recipeId : string) (width height : Z)
  (grayscaleLevels : option Z) (format : Format) (rotate : option Z) : M Buffer :=
  built <- await (buildRecipeElement recipeId) ;;
  renders <- await (renderRecipeOutputs
                      (mkRenderCall recipeId (RecipeScreen built width height)
                                    width height [format] grayscaleLevels (Some rotate))) ;;
  ret (match bufferOf format renders with
       | Some buffer => buffer
       | None => []
       end).

Definition renderFallbackImage (format : Format) (contentType : string) (slug : string)
  : M HttpResponse :=
  tryCatch
    (renders <- await (renderRecipeOutputs
                         (mkRenderCall slug (NotFoundScreen slug)
                                       DEFAULT_IMAGE_WIDTH DEFAULT_IMAGE_HEIGHT
                                       [format] (Some 2) None)) ;;
     match bufferOf format renders with
     | None => throw (ErrorObj ("Missing " ++ formatName format ++ " buffer for fallback"))
     | Some buffer => ret (imageResponse contentType buffer)
     end)
    (fun fallbackError =>
       consoleWrite ("error: Error generating fallback image: "
                       ++ errorMessageOf fallbackError) ;;;
       ret (mkHttpResponse 500 "text/plain" None (Text "Error generating image"))).

(** The degree sign of the log line. *)
Definition degree : string := String (ascii_of_nat 176) "".

Definition GET (req : RouteRequest) : M HttpResponse :=
  tryCatch
    (let s := settingsOf req in
     consoleWrite
       ("info: " ++ formatNameUpper (format s) ++ " request for: " ++ bitmapPath s
          ++ " in " ++ JsString.ofZ (validWidth s) ++ "x" ++ JsString.ofZ (validHeight s)
          ++ " with " ++ showNumber (grayscaleLevels s) ++ " gray levels"
          ++ match rotateAngle s with
             | Some k => if k =? 0 then "" else ", rotate " ++ JsString.ofZ k ++ degree
             | None => ""
             end) ;;;
     recipeBuffer <- renderRecipeImage (recipeId s) (validWidth s) (validHeight s)
                                       (grayscaleLevels s) (format s) (rotateAngle s) ;;
     match recipeBuffer with
     | [] =>
         consoleWrite ("warn: Failed to generate " ++ formatName (format s) ++ " for "
                         ++ recipeId s ++ ", returning fallback") ;;;
         renderFallbackImage (format s) (imageContentType s) "not-found"
     | _ => ret (imageResponse (imageContentType s) recipeBuffer)
     end)
    (fun error =>
       consoleWrite ("error: Error generating image: " ++ errorMessageOf error) ;;;
       renderFallbackImage Bitmap "image/bmp" "Error occurred").

End Handler.
End Route.

(* ================================================================== *)
(** * More vocabulary of the statements                                 *)
(* ================================================================== *)

(** The requests one path adds: at most one, the feed request with a
    feed URL, none without a source. *)
Definition addsRequests (ICAL_URL API_KEY : option string) (w w' : World) (added : list Request) (params : option CalendarParams)
  : Prop :=
  requests w' = (requests w ++ added)%list
  /\ (List.length added <= 1)%nat
  /\ (truthy (resolvedIcalUrl ICAL_URL params) = true ->
      added = [GetICal (valueOf (resolvedIcalUrl ICAL_URL params))])
  /\ (truthy (resolvedIcalUrl ICAL_URL params) = false ->
      isNonEmpty (resolvedApiKey API_KEY params) = false -> added = []).


(** The response of the route when nothing can be rendered. *)
Definition errorResponse : Route.HttpResponse :=
  Route.mkHttpResponse 500 "text/plain" None (Route.Text "Error generating image").

(** A response that carries an image: status 200, the bytes, and their
    number as [Content-Length]. *)
Definition isImageResponse (contentType : string) (r : Route.HttpResponse) : Prop :=
  exists buffer, r = Route.imageResponse contentType buffer.

(** A table of screens with the one recipe "weather", a renderer that
    gives four bytes as PNG and two as bitmap, and a request for
    [weather.png] at 800 by 480. *)
Definition sampleScreens : string -> bool := fun slug => String.eqb slug "weather".

Definition sampleBuild : string -> Exn + unit := fun _ => inr tt.

Definition sampleRender : Route.RenderCall unit -> Exn + Route.Renders :=
  fun _ => inr (Route.mkRenders (Some [137; 80; 78; 71]) (Some [66; 77])).

Definition sampleRequest : Route.RouteRequest :=
  Route.mkRouteRequest (Some ["weather.png"]) (Some "800") (Some "480") None None.
Example split_ex :
  JsString.split "ab" "xabyabab" = ["x"; "y"; ""; ""].
Proof. reflexivity. Qed.

Example indexOf_ex :
  JsString.indexOf "END" "abcEND" = 3 /\ JsString.indexOf "END" "abc" = -1.
Proof. split; reflexivity. Qed.

Example matchField_ex :
  JsString.matchField "DTSTART" JsString.isSemiOrColon
    "UID:1
DTSTART:
DTSTART;VALUE=DATE:20240101
DTEND:20240102" = Some "VALUE=DATE:20240101".
Proof. reflexivity. Qed.

Example trim_ex : JsString.trim "  a b 	" = "a b".
Proof. reflexivity. Qed.

Example ofZ_ex : JsString.ofZ 0 = "0" /\ JsString.ofZ 50 = "50" /\ JsString.ofZ (-7) = "-7".
Proof. repeat split; reflexivity. Qed.

Example civil_epoch :
  JsDate.civilFromDays 0 = JsDate.mkCivil 1970 1 1
  /\ JsDate.daysFromCivil 2024 1 1 = 19723
  /\ JsDate.WeekDay (19723 * JsDate.msPerDay) = 1.
Proof. repeat split; reflexivity. Qed.

Example toISOString_ex :
  JsDate.toISOString 1704283200000 = "2024-01-03T12:00:00.000Z".
Proof. reflexivity. Qed.

Example isoParse_ex :
  IsoDate.parse 0 "2024-01-03T12:00:00.000Z" = Some 1704283200000
  /\ IsoDate.parse 3600000 "2024-01-03T09:00:00" = Some (1704272400000 - 3600000)
  /\ IsoDate.parse 3600000 "2024-01-03T09:00:00+01:00" = Some (1704272400000 - 3600000)
  /\ IsoDate.parse 3600000 "2024-01-01" = Some 1704067200000
  /\ IsoDate.parse 0 "" = None
  /\ IsoDate.parse 0 "20240103T090000" = None.
Proof. repeat split; reflexivity. Qed.

(* ================================================================== *)
(** * The calendar: day numbers and civil dates                         *)
(* ================================================================== *)

Module JsDateFacts.
Import JsDate.

Ltac div_lia := Z.to_euclidean_division_equations; lia.

Lemma daysFromCivil_shift y m d k :
  daysFromCivil y m (d + k) = daysFromCivil y m d + k.
Proof. unfold daysFromCivil. lia. Qed.

(** The day of the 400-year era and the year of the era stay in range. *)
Lemma yearOfEra_range doe :
  0 <= doe <= 146096 ->
  let yoe := (doe - doe / 1460 + doe / 36524 - doe / 146096) / 365 in
  0 <= yoe <= 399 /\ 0 <= doe - (365 * yoe + yoe / 4 - yoe / 100) <= 365.
Proof. intros H yoe. subst yoe. div_lia. Qed.

(** Going to the civil date and back is the identity on day numbers. *)
Lemma daysFromCivil_civilFromDays n :
  daysFromCivil (c_year (civilFromDays n)) (c_month (civilFromDays n))
                (c_day (civilFromDays n)) = n.
Proof.
  unfold civilFromDays; cbn [c_year c_month c_day].
  set (z := n + 719468).
  set (era := z / 146097).
  set (doe := z - era * 146097).
  assert (Hdoe : 0 <= doe <= 146096) by (subst doe era; div_lia).
  assert (Hn : n = era * 146097 + doe - 719468) by (subst doe z; lia).
  clearbody doe era. clear z.
  set (yoe := (doe - doe / 1460 + doe / 36524 - doe / 146096) / 365).
  pose proof (yearOfEra_range doe Hdoe) as Hyoe. cbv zeta in Hyoe.
  fold yoe in Hyoe.
  set (doy := doe - (365 * yoe + yoe / 4 - yoe / 100)) in *.
  assert (Hdoe' : doe = yoe * 365 + yoe / 4 - yoe / 100 + doy) by (subst doy; lia).
  clearbody doy. clearbody yoe.
  set (mp := (5 * doy + 2) / 153).
  assert (Hmp : 0 <= mp <= 11) by (subst mp; div_lia).
  clearbody mp.
  unfold daysFromCivil.
  destruct (mp <? 10) eqn:E1.
  - apply Z.ltb_lt in E1.
    replace (if 2 <? mp + 3 then mp + 3 - 3 else mp + 3 + 9) with mp
      by (destruct (2 <? mp + 3) eqn:E2; [lia | apply Z.ltb_ge in E2; lia]).
    destruct (mp + 3 <=? 2) eqn:E3; [apply Z.leb_le in E3; lia|].
    replace (yoe + era * 400 + 0 - 0) with (yoe + era * 400) by lia.
    replace ((yoe + era * 400) / 400) with era by div_lia.
    replace (yoe + era * 400 - era * 400) with yoe by lia.
    lia.
  - apply Z.ltb_ge in E1.
    replace (if 2 <? mp - 9 then mp - 9 - 3 else mp - 9 + 9) with mp
      by (destruct (2 <? mp - 9) eqn:E2; [apply Z.ltb_lt in E2; lia | lia]).
    destruct (mp - 9 <=? 2) eqn:E3; [|apply Z.leb_gt in E3; lia].
    replace (yoe + era * 400 + 1 - 1) with (yoe + era * 400) by lia.
    replace ((yoe + era * 400) / 400) with era by div_lia.
    replace (yoe + era * 400 - era * 400) with yoe by lia.
    lia.
Qed.

Lemma civil_month_range n : 1 <= c_month (civilFromDays n) <= 12.
Proof.
  unfold civilFromDays; cbn [c_month].
  set (z := n + 719468).
  set (doe := z - z / 146097 * 146097).
  assert (Hdoe : 0 <= doe <= 146096) by (subst doe; div_lia).
  clearbody doe. clear z.
  pose proof (yearOfEra_range doe Hdoe) as Hyoe. cbv zeta in Hyoe.
  set (yoe := (doe - doe / 1460 + doe / 36524 - doe / 146096) / 365) in *.
  set (doy := doe - (365 * yoe + yoe / 4 - yoe / 100)) in *.
  clearbody doy. clearbody yoe.
  destruct (_ <? 10) eqn:E; [apply Z.ltb_lt in E | apply Z.ltb_ge in E]; div_lia.
Qed.

(** [MakeDay] at the year and month of a time, with a day of the month
    [k] past that time's own, is [k] days past that time's day. *)
Lemma MakeDay_of_fields t k :
  MakeDay (YearFromTime t) (MonthFromTime t) (DateFromTime t + k) = Day t + k.
Proof.
  unfold MakeDay, YearFromTime, MonthFromTime, DateFromTime.
  pose proof (civil_month_range (Day t)) as Hm.
  set (c := civilFromDays (Day t)) in *.
  replace ((c_month c - 1) / 12) with 0 by div_lia.
  replace ((c_month c - 1) mod 12 + 1) with (c_month c) by div_lia.
  replace (c_year c + 0) with (c_year c) by lia.
  pose proof (daysFromCivil_shift (c_year c) (c_month c) 1 (c_day c - 1)) as Hs.
  replace (1 + (c_day c - 1)) with (c_day c) in Hs by lia.
  pose proof (daysFromCivil_civilFromDays (Day t)) as Hr. fold c in Hr.
  lia.
Qed.

Lemma LocalTime_eq tza t : LocalTime tza t = t + tza.
Proof. reflexivity. Qed.

Lemma msPerDay_eq : msPerDay = 86400000.
Proof. reflexivity. Qed.

Lemma MakeTime_eq h m s ms :
  MakeTime h m s ms = h * 3600000 + m * 60000 + s * 1000 + ms.
Proof. reflexivity. Qed.

Lemma day_time_split t : t = Day t * msPerDay + TimeWithinDay t.
Proof. unfold Day, TimeWithinDay, msPerDay. div_lia. Qed.

(** [d.setDate(d.getDate() + k)] moves the date by [k] whole days. *)
Lemma setDate_getDate tza d k :
  setDate tza d (getDate tza d + k) = d + k * msPerDay.
Proof.
  unfold setDate, getDate, UTC, MakeDate.
  rewrite MakeDay_of_fields.
  pose proof (day_time_split (LocalTime tza d)) as H.
  unfold LocalTime in *. lia.
Qed.

(** [d.setHours(h, m, s, ms)] keeps the local day and replaces the time. *)
Lemma setHours_local tza d h m s ms :
  LocalTime tza (setHours tza d h m s ms)
  = Day (LocalTime tza d) * msPerDay + MakeTime h m s ms.
Proof. unfold setHours, UTC, MakeDate, LocalTime. lia. Qed.

Lemma Day_shift t k : Day (t + k * msPerDay) = Day t + k.
Proof. unfold Day, msPerDay. div_lia. Qed.

Lemma length_append s1 s2 :
  String.length (s1 ++ s2) = (String.length s1 + String.length s2)%nat.
Proof. induction s1 as [|c s1 IH]; cbn; [reflexivity | rewrite IH; reflexivity]. Qed.

Lemma padDigits_length w n : String.length (JsString.padDigits w n) = w.
Proof.
  revert n. induction w as [|w IH]; intros n; [reflexivity|].
  cbn [JsString.padDigits]. rewrite length_append, IH. cbn. lia.
Qed.

(** For the years 0 to 9999 an ISO string has the 24 characters of
    [YYYY-MM-DDTHH:mm:ss.sssZ]. *)
Lemma toISOString_length t :
  0 <= YearFromTime t <= 9999 -> String.length (toISOString t) = 24%nat.
Proof.
  intros [H0 H1]. unfold toISOString, isoYear.
  apply Z.leb_le in H0, H1. rewrite H0, H1. cbn [andb].
  repeat (rewrite length_append; cbn [String.length]).
  rewrite !padDigits_length. reflexivity.
Qed.

End JsDateFacts.

(* ================================================================== *)
(** * [getWeekBounds]                                                   *)
(* ================================================================== *)

Module WeekBoundsFacts.
Import JsDate JsDateFacts.


Lemma getDay_range tza now : 0 <= getDay tza now <= 6.
Proof. unfold getDay, WeekDay. div_lia. Qed.

Lemma weekStartOf_local tza now :
  LocalTime tza (weekStartOf tza now)
  = (Day (LocalTime tza now) - daysBack (getDay tza now)) * msPerDay.
Proof.
  unfold weekStartOf. rewrite setHours_local.
  replace (getDate tza now - getDay tza now + (if getDay tza now =? 0 then -6 else 1))
    with (getDate tza now + (- daysBack (getDay tza now)))
    by (unfold daysBack; destruct (getDay tza now =? 0) eqn:E;
        [apply Z.eqb_eq in E|]; lia).
  rewrite setDate_getDate.
  unfold LocalTime at 1.
  replace (now + - daysBack (getDay tza now) * msPerDay + tza)
    with (LocalTime tza now + - daysBack (getDay tza now) * msPerDay)
    by (unfold LocalTime; lia).
  rewrite Day_shift. unfold MakeTime. lia.
Qed.

(** [weekStart] is at local midnight. *)
Lemma weekStartOf_midnight tza now :
  TimeWithinDay (LocalTime tza (weekStartOf tza now)) = 0.
Proof.
  rewrite weekStartOf_local. unfold TimeWithinDay.
  apply Z.mod_mul. unfold msPerDay. lia.
Qed.

(** [weekStart] is a Monday. *)
Lemma weekStartOf_monday tza now :
  getDay tza (weekStartOf tza now) = 1.
Proof.
  unfold getDay at 1. rewrite weekStartOf_local.
  unfold WeekDay. unfold Day at 1. rewrite Z.div_mul by (unfold msPerDay; lia).
  unfold daysBack, getDay, WeekDay.
  set (n := Day (LocalTime tza now)).
  destruct ((n + 4) mod 7 =? 0) eqn:E;
    [apply Z.eqb_eq in E | apply Z.eqb_neq in E]; div_lia.
Qed.

(** [weekStart] is the latest local midnight of a Monday not after now. *)
Lemma weekStartOf_current tza now :
  weekStartOf tza now <= now < weekStartOf tza now + 7 * msPerDay.
Proof.
  pose proof (weekStartOf_local tza now) as H.
  pose proof (getDay_range tza now) as Hd.
  pose proof (day_time_split (LocalTime tza now)) as Hs.
  assert (Ht : 0 <= TimeWithinDay (LocalTime tza now) < msPerDay)
    by (clear; unfold TimeWithinDay, msPerDay; div_lia).
  assert (Hb : 0 <= daysBack (getDay tza now) <= 6)
    by (clear - Hd; unfold daysBack; destruct (getDay tza now =? 0) eqn:E;
        [|apply Z.eqb_neq in E]; lia).
  rewrite !LocalTime_eq in *. rewrite msPerDay_eq in *. lia.
Qed.

(** From [weekStart] to [weekEnd]: seven days on, then the last
    millisecond of that day. *)
Lemma weekEndOf_span tza now :
  weekEndOf tza now - weekStartOf tza now = 8 * msPerDay - 1.
Proof.
  unfold weekEndOf.
  pose proof (setHours_local tza
                (setDate tza (weekStartOf tza now)
                         (getDate tza (weekStartOf tza now) + 7)) 23 59 59 999) as H.
  rewrite setDate_getDate in H.
  replace (LocalTime tza (weekStartOf tza now + 7 * msPerDay))
    with (LocalTime tza (weekStartOf tza now) + 7 * msPerDay) in H
    by (unfold LocalTime; lia).
  rewrite Day_shift in H.
  rewrite weekStartOf_local in H.
  unfold Day at 1 in H. rewrite Z.div_mul in H by (unfold msPerDay; lia).
  pose proof (weekStartOf_local tza now) as Hs.
  rewrite setDate_getDate.
  rewrite MakeTime_eq in H.
  rewrite !LocalTime_eq in *. rewrite msPerDay_eq in *. lia.
Qed.

End WeekBoundsFacts.

(* ================================================================== *)
(** * The adapters and the two paths, step by step                      *)
(* ================================================================== *)

(** Run the monadic plumbing of a computation, and nothing else. *)
Ltac run_js :=
  cbv beta iota zeta delta
    [tryCatch bind ret throw await consoleWrite fetch newDate getWeekBounds
     cacheRead cacheStore];
  cbn [ticks requests console cache].

Section Flow.
Variable tza : Z.
Variable DateParse : string -> option Z.
Variable clock : nat -> Z.
Variable net : list Request -> Request -> FetchOutcome.
Variable ICAL_URL : option string.
Variable API_KEY : option string.

Lemma adapterCatch_null label error w :
  exists w', adapterCatch label error w = (Return None, w')
             /\ ticks w' = ticks w /\ requests w' = requests w /\ cache w' = cache w.
Proof.
  unfold adapterCatch.
  destruct (isPrerenderAbort (errorMessageOf error)).
  - exists w. repeat split.
  - eexists. run_js. repeat split.
Qed.

Ltac catch_null :=
  run_js;
  match goal with
  | |- context [adapterCatch ?l ?e ?w0] =>
      let w' := fresh "w'" in
      destruct (adapterCatch_null l e w0) as (w' & -> & ? & ? & ?);
      exists None, w'; cbn in *; auto
  end.

(** The feed adapter always returns, after exactly one feed request. *)
Lemma fetchICalEvents_returns url w :
  exists r w', fetchICalEvents net url w = (Return r, w')
               /\ ticks w' = ticks w
               /\ requests w' = (requests w ++ [GetICal url])%list
               /\ cache w' = cache w.
Proof.
  unfold fetchICalEvents. run_js.
  destruct (net (requests w) (GetICal url)) as [error | response].
  - catch_null.
  - destruct (ok response); cbn [negb].
    + destruct (text response) as [error | doc].
      * catch_null.
      * run_js. eexists _, _. repeat split.
    + catch_null.
Qed.

(** The remote-API adapter always returns, after one clock read and
    exactly one events request. *)
Lemma fetchCalendarEvents_returns calendarId apiKey maxResults w :
  exists r w', fetchCalendarEvents tza clock net calendarId apiKey maxResults w
               = (Return r, w')
               /\ ticks w' = S (ticks w)
               /\ requests w' = (requests w
                     ++ [eventsRequest tza calendarId apiKey maxResults (clock (ticks w))])%list
               /\ cache w' = cache w.
Proof.
  unfold fetchCalendarEvents, eventsRequest. run_js.
  match goal with
  | |- context [net (requests w) ?r] => set (req := r)
  end.
  destruct (net (requests w) req) as [error | response].
  - catch_null.
  - destruct (ok response); cbn [negb].
    + destruct (json response) as [error | data].
      * catch_null.
      * run_js. eexists _, _. repeat split.
    + catch_null.
Qed.

End Flow.

(* ================================================================== *)
(** * The time grid: [getEventStyle]                                    *)
(* ================================================================== *)

Lemma slotOf_valid h m :
  slotOf (Some h) (Some m) = Some ((h - 7) * 2 + (if 30 <=? m then 1 else 0)).
Proof. reflexivity. Qed.

(** With a NaN among the times the height is NaN, which is not zero
    either. *)
Lemma getEventStyle_height_not_zero tza DateParse event :
  height (getEventStyle tza DateParse event) <> Some 0.
Proof.
  unfold getEventStyle; cbn [height].
  destruct (parseEventDate tza DateParse (start event)) as [s|];
    destruct (parseEventDate tza DateParse (end_ event)) as [e|];
    cbn [option_map]; try (unfold slotOf; cbn; discriminate).
  rewrite !slotOf_valid. cbn [JsNum.sub JsNum.max JsNum.lift2].
  intros H. injection H as H. lia.
Qed.

(** With valid dates at both ends the two fields are the slot of the start
    and the distance to the slot of the end, raised to 1. *)
Lemma getEventStyle_valid tza DateParse event s e :
  parseEventDate tza DateParse (start event) = Some s ->
  parseEventDate tza DateParse (end_ event) = Some e ->
  getEventStyle tza DateParse event
  = mkEventStyle
      (Some ((JsDate.getHours tza s - 7) * 2
             + (if 30 <=? JsDate.getMinutes tza s then 1 else 0)))
      (Some (Z.max 1 ((JsDate.getHours tza e - 7) * 2
                      + (if 30 <=? JsDate.getMinutes tza e then 1 else 0)
                      - ((JsDate.getHours tza s - 7) * 2
                         + (if 30 <=? JsDate.getMinutes tza s then 1 else 0))))).
Proof.
  intros Hs He. unfold getEventStyle. rewrite Hs, He. cbn [option_map].
  rewrite !slotOf_valid. reflexivity.
Qed.

(** C8. For every timed event whose start and end are valid dates,
    [getEventStyle] returns [top = (startHour - 7) * 2 + (startMinute >= 30
    ? 1 : 0)] and [height = max(1, endOffset - top)], where [endOffset] is
    computed in the same way from the end; the height is at least 1 whatever
    the order of start and end.  The hours and minutes are those of local
    time. *)
Theorem getEventStyle_slots tza DateParse event s e :
  parseEventDate tza DateParse (start event) = Some s ->
  parseEventDate tza DateParse (end_ event) = Some e ->
  let offset := (JsDate.getHours tza s - 7) * 2
                + (if 30 <=? JsDate.getMinutes tza s then 1 else 0) in
  let endOffset := (JsDate.getHours tza e - 7) * 2
                   + (if 30 <=? JsDate.getMinutes tza e then 1 else 0) in
  getEventStyle tza DateParse event
  = mkEventStyle (Some offset) (Some (Z.max 1 (endOffset - offset)))
  /\ (exists h, height (getEventStyle tza DateParse event) = Some h /\ 1 <= h).
Proof.
  intros Hs He offset endOffset.
  pose proof (getEventStyle_valid tza DateParse event s e Hs He) as Heq.
  fold offset endOffset in Heq.
  split; [exact Heq|].
  rewrite Heq. cbn [height]. eexists; split; [reflexivity | lia].
Qed.

(** Scenario C: 09:00 to 10:00 lies 4 slots below 07:00 and is 2 slots
    high. *)
Lemma getEventStyle_slots_witness :
  parseEventDate utcPlusOne (IsoDate.parse utcPlusOne) "2024-01-03T09:00:00"
  = Some 1704268800000
  /\ parseEventDate utcPlusOne (IsoDate.parse utcPlusOne) "2024-01-03T10:00:00"
     = Some 1704272400000
  /\ getEventStyle utcPlusOne (IsoDate.parse utcPlusOne)
       (timedEvent "2024-01-03T09:00:00" "2024-01-03T10:00:00")
     = mkEventStyle (Some 4) (Some 2).
Proof.
  split; [reflexivity | split; [reflexivity |]].
  exact (proj1 (getEventStyle_slots utcPlusOne (IsoDate.parse utcPlusOne)
                  (timedEvent "2024-01-03T09:00:00" "2024-01-03T10:00:00")
                  1704268800000 1704272400000 eq_refl eq_refl)).
Defined.

(** A zero-duration event and an event that ends before it starts are
    one slot high. *)
Example getEventStyle_degenerate :
  getEventStyle utcPlusOne (IsoDate.parse utcPlusOne)
    (timedEvent "2024-01-03T09:00:00" "2024-01-03T09:00:00")
  = mkEventStyle (Some 4) (Some 1)
  /\ getEventStyle utcPlusOne (IsoDate.parse utcPlusOne)
       (timedEvent "2024-01-03T10:00:00" "2024-01-03T09:00:00")
     = mkEventStyle (Some 6) (Some 1).
Proof. split; reflexivity. Qed.



Example getEventStyle_unclamped :
  getEventStyle utcPlusOne (IsoDate.parse utcPlusOne)
    (timedEvent "2024-01-03T06:00:00" "2024-01-03T23:30:00")
  = mkEventStyle (Some (-2)) (Some 35).
Proof. reflexivity. Qed.

(* ================================================================== *)
(** * The week window                                                   *)
(* ================================================================== *)

(** For every invocation, [getWeekBounds] reads the clock once and
    returns the bounds of the week of what it read. *)
Lemma getWeekBounds_run tza clock w :
  getWeekBounds tza clock w
  = (Return (weekBoundsAt tza (clock (ticks w))),
     mkWorld (S (ticks w)) (requests w) (console w) (cache w)).
Proof. reflexivity. Qed.

(** The start of the window is right for every clock reading: a Monday,
    at local midnight, the latest one not after now; Sundays included. *)
Lemma weekStartOf_monday_midnight tza now :
  JsDate.getDay tza (weekStartOf tza now) = 1
  /\ JsDate.TimeWithinDay (JsDate.LocalTime tza (weekStartOf tza now)) = 0
  /\ weekStartOf tza now <= now < weekStartOf tza now + 7 * JsDate.msPerDay.
Proof.
  split; [apply WeekBoundsFacts.weekStartOf_monday|].
  split; [apply WeekBoundsFacts.weekStartOf_midnight|].
  apply WeekBoundsFacts.weekStartOf_current.
Qed.

Example weekBoundsAt_sunday :
  JsDate.getDay 0 sundayNoon = 0
  /\ timeMin (weekBoundsAt 0 sundayNoon) = "2024-01-01T00:00:00.000Z".
Proof. split; reflexivity. Qed.

(** C1. The start of the window is the Monday of the current local week at
    local midnight, on Sundays too; the end of the window, however, is the end
    of the following Monday: [weekEnd.setDate(weekStart.getDate() + 7)] moves
    to the next Monday and [setHours(23, 59, 59, 999)] to the last millisecond
    of that day, so that end minus start is 8 days minus 1 ms at every clock
    reading, and not 7 days minus 1 ms.  On Wednesday 2024-01-03 12:00 UTC
    the window runs from 2024-01-01T00:00:00.000Z to
    2024-01-08T23:59:59.999Z. *)
Theorem getWeekBounds_window_spans_eight_days :
  (forall tza now,
      JsDate.getDay tza (weekStartOf tza now) = 1
      /\ JsDate.TimeWithinDay (JsDate.LocalTime tza (weekStartOf tza now)) = 0
      /\ weekStartOf tza now <= now < weekStartOf tza now + 7 * JsDate.msPerDay
      /\ weekEndOf tza now - weekStartOf tza now = 8 * JsDate.msPerDay - 1)
  /\ fst (getWeekBounds 0 (fun _ => wednesdayNoon) emptyWorld)
     = Return (mkWeekBounds "2024-01-01T00:00:00.000Z" "2024-01-08T23:59:59.999Z")
  /\ weekEndOf 0 wednesdayNoon - weekStartOf 0 wednesdayNoon = 691199999
  /\ 691199999 <> 7 * JsDate.msPerDay - 1.
Proof.
  split.
  - intros tza now.
    destruct (weekStartOf_monday_midnight tza now) as (H1 & H2 & H3).
    repeat split; try assumption; try apply H3.
    apply WeekBoundsFacts.weekEndOf_span.
  - split; [vm_compute; reflexivity|].
    split; [vm_compute; reflexivity|].
    vm_compute. discriminate.
Qed.

(* ------------------------------------------------------------------ *)
(** ** The week filter                                                  *)
(* ------------------------------------------------------------------ *)

Lemma filter_idempotent {A} (p : A -> bool) (l : list A) :
  filter p (filter p l) = filter p l.
Proof.
  induction l as [|x l IH]; [reflexivity|].
  cbn [filter]. destruct (p x) eqn:E; [|exact IH].
  cbn [filter]. rewrite E, IH. reflexivity.
Qed.

(** An event is kept exactly when its start is a valid date inside the
    closed window. *)
Lemma inWeek_spec DateParse weekStart weekEnd event :
  inWeek DateParse (Some weekStart) (Some weekEnd) event = true
  <-> exists t, DateParse (start event) = Some t /\ weekStart <= t <= weekEnd.
Proof.
  unfold inWeek, JsNum.leb, JsNum.geb.
  destruct (DateParse (start event)) as [t|].
  - rewrite andb_true_iff, !Z.leb_le. split.
    + intros [H1 H2]. exists t. auto.
    + intros (t' & Ht & H). injection Ht as <-. exact H.
  - split; [discriminate|]. intros (t & Ht & _). discriminate.
Qed.

(** C9. Filtering to the week window is idempotent: filtering a list that
    was already filtered against the same window gives the same list. *)
Theorem filterToWeek_idempotent DateParse bounds evs :
  filterToWeek DateParse bounds (filterToWeek DateParse bounds evs)
  = filterToWeek DateParse bounds evs.
Proof. unfold filterToWeek. apply filter_idempotent. Qed.

(* ================================================================== *)
(** * The iCal parser                                                   *)
(* ================================================================== *)

Example parseICal_sampleFeed :
  parseICal sampleFeed
  = [mkCalendarEvent "a1" "New Year" "2024-01-01" "2024-01-02" true;
     mkCalendarEvent "event-3" "Stand-up" "2024-01-03T09:00:00" "2024-01-03T10:00:00"
                     false].
Proof. vm_compute. reflexivity. Qed.

Example parseICal_emptyFeed : parseICal emptyFeed = [].
Proof. vm_compute. reflexivity. Qed.

(** The loop treats the blocks one by one: a block's event depends on the
    block and on its index only. *)
Lemma parseBlocksFrom_app i pre post :
  parseBlocksFrom i (pre ++ post)
  = (parseBlocksFrom i pre ++ parseBlocksFrom (i + List.length pre) post)%list.
Proof.
  revert i. induction pre as [|b pre IH]; intros i.
  - cbn. rewrite Nat.add_0_r. reflexivity.
  - cbn [app parseBlocksFrom List.length]. rewrite IH.
    replace (S i + List.length pre)%nat with (i + S (List.length pre))%nat by lia.
    destruct (parseBlock i b); reflexivity.
Qed.

Lemma parseBlocksFrom_In i blocks j b e :
  nth_error blocks j = Some b ->
  parseBlock (i + j) b = Some e ->
  In e (parseBlocksFrom i blocks).
Proof.
  revert i j. induction blocks as [|b0 blocks IH]; intros i j Hn Hp.
  - destruct j; discriminate.
  - destruct j as [|j].
    + injection Hn as ->. rewrite Nat.add_0_r in Hp.
      cbn [parseBlocksFrom]. rewrite Hp. left. reflexivity.
    + cbn [nth_error] in Hn. cbn [parseBlocksFrom].
      assert (In e (parseBlocksFrom (S i) blocks)) as Hin.
      { apply (IH (S i) j Hn). replace (S i + j)%nat with (i + S j)%nat by lia.
        exact Hp. }
      destruct (parseBlock i b0); [right|]; exact Hin.
Qed.

(** A field whose name does not occur in the text is not matched. *)
Lemma matchField_absent lit cls s :
  JsString.includes lit s = false -> JsString.matchField lit cls s = None.
Proof.
  induction s as [|c s IH]; cbn [JsString.includes JsString.matchField];
    intros H; apply orb_false_iff in H; destruct H as [H1 H2]; rewrite H1.
  - reflexivity.
  - apply IH. exact H2.
Qed.

(** A block that has lost its [DTSTART] or [DTEND] line altogether is a
    block without a start or end match. *)
Lemma startMatch_absent eventData :
  JsString.includes "DTSTART" eventData = false -> startMatch eventData = None.
Proof. apply matchField_absent. Qed.

Lemma endMatch_absent eventData :
  JsString.includes "DTEND" eventData = false -> endMatch eventData = None.
Proof. apply matchField_absent. Qed.

Lemma parseBlock_incomplete i block eventData :
  eventDataOf block = Some eventData ->
  startMatch eventData = None \/ endMatch eventData = None ->
  parseBlock i block = None.
Proof.
  intros Hd [H | H]; unfold parseBlock; rewrite Hd, H.
  - reflexivity.
  - destruct (startMatch eventData); reflexivity.
Qed.

(** C5. A VEVENT block of a feed document in which [DTSTART] or [DTEND] is
    not matched contributes no event and does not stop the loop: the result
    is made of the events of the blocks before it and of the blocks after
    it, each parsed at its own index, and every other block that yields an
    event has that event in the result. *)
Theorem parseICal_skips_incomplete_block doc pre block post eventData :
  tl (eventBlocks doc) = (pre ++ block :: post)%list ->
  eventDataOf block = Some eventData ->
  startMatch eventData = None \/ endMatch eventData = None ->
  parseBlock (S (List.length pre)) block = None
  /\ parseICal doc
     = (parseBlocksFrom 1 pre ++ parseBlocksFrom (S (S (List.length pre))) post)%list
  /\ (forall j b e,
         nth_error (pre ++ block :: post) j = Some b ->
         parseBlock (S j) b = Some e ->
         In e (parseICal doc)).
Proof.
  intros Hdoc Hd Hm.
  pose proof (parseBlock_incomplete (S (List.length pre)) block eventData Hd Hm) as Hnone.
  split; [exact Hnone|]. unfold parseICal. rewrite Hdoc. split.
  - rewrite parseBlocksFrom_app. cbn [parseBlocksFrom Nat.add].
    rewrite Hnone. reflexivity.
  - intros j b e Hn Hp. apply (parseBlocksFrom_In 1 _ j b e Hn). exact Hp.
Qed.

Lemma parseICal_skips_incomplete_block_witness :
  let blocks := tl (eventBlocks sampleFeed) in
  let pre := firstn 1 blocks in
  let block := nth 1 blocks "" in
  let post := skipn 2 blocks in
  let eventData := match eventDataOf block with Some d => d | None => "" end in
  tl (eventBlocks sampleFeed) = (pre ++ block :: post)%list
  /\ eventDataOf block = Some eventData
  /\ (startMatch eventData = None \/ endMatch eventData = None)
  /\ parseBlock 2 block = None
  /\ parseICal sampleFeed = (parseBlocksFrom 1 pre ++ parseBlocksFrom 3 post)%list
  /\ List.length (parseICal sampleFeed) = 2%nat.
Proof.
  intros blocks pre block post eventData.
  assert (H1 : tl (eventBlocks sampleFeed) = (pre ++ block :: post)%list)
    by (vm_compute; reflexivity).
  assert (H2 : eventDataOf block = Some eventData) by (vm_compute; reflexivity).
  assert (H3 : startMatch eventData = None \/ endMatch eventData = None)
    by (right; vm_compute; reflexivity).
  destruct (parseICal_skips_incomplete_block sampleFeed pre block post eventData H1 H2 H3)
    as (K1 & K2 & _).
  split; [exact H1|]. split; [exact H2|]. split; [exact H3|].
  split; [exact K1|]. split; [exact K2|].
  vm_compute. reflexivity.
Defined.

(* ------------------------------------------------------------------ *)
(** ** All-day detection                                                *)
(* ------------------------------------------------------------------ *)

(** A block with [END:VEVENT], a start match and an end match yields an
    event, whose [allDay] is the test [startStr.length === 8]. *)
Lemma parseBlock_complete i block eventData startCap endCap :
  eventDataOf block = Some eventData ->
  startMatch eventData = Some startCap ->
  endMatch eventData = Some endCap ->
  exists e, parseBlock i block = Some e
            /\ allDay e = (JsString.len (JsString.trim startCap) =? 8)
            /\ start e = parseICalDate (JsString.trim startCap)
            /\ end_ e = parseICalDate (JsString.trim endCap).
Proof.
  intros Hd Hs He. unfold parseBlock. rewrite Hd, Hs, He.
  eexists. split; [reflexivity|]. cbn [allDay start end_]. auto.
Qed.

(** C6. In every block that yields an event, a [DTSTART] value of 8
    characters gives [allDay = true] and a longer one gives [allDay = false];
    the value is what follows [DTSTART:] or [DTSTART;] on its line, trimmed,
    so that a value that carries parameters is a longer one. *)
Theorem parseBlock_allDay i block eventData startCap endCap :
  eventDataOf block = Some eventData ->
  startMatch eventData = Some startCap ->
  endMatch eventData = Some endCap ->
  exists e, parseBlock i block = Some e
            /\ (JsString.len (JsString.trim startCap) = 8 -> allDay e = true)
            /\ (8 < JsString.len (JsString.trim startCap) -> allDay e = false).
Proof.
  intros Hd Hs He.
  destruct (parseBlock_complete i block eventData startCap endCap Hd Hs He)
    as (e & Hp & Ha & _).
  exists e. split; [exact Hp|]. rewrite Ha. split; intros H.
  - apply Z.eqb_eq. exact H.
  - apply Z.eqb_neq. lia.
Qed.

Lemma parseBlock_allDay_witness :
  let block := nth 0 (tl (eventBlocks sampleFeed)) "" in
  let eventData := match eventDataOf block with Some d => d | None => "" end in
  eventDataOf block = Some eventData
  /\ startMatch eventData = Some "20240101"
  /\ endMatch eventData = Some "20240102"
  /\ exists e, parseBlock 1 block = Some e
               /\ (JsString.len (JsString.trim "20240101") = 8 -> allDay e = true)
               /\ (8 < JsString.len (JsString.trim "20240101") -> allDay e = false).
Proof.
  intros block eventData.
  assert (H1 : eventDataOf block = Some eventData) by (vm_compute; reflexivity).
  assert (H2 : startMatch eventData = Some "20240101") by (vm_compute; reflexivity).
  assert (H3 : endMatch eventData = Some "20240102") by (vm_compute; reflexivity).
  split; [exact H1|]. split; [exact H2|]. split; [exact H3|].
  exact (parseBlock_allDay 1 block eventData "20240101" "20240102" H1 H2 H3).
Defined.

(** The three shapes of a start value: a date, a date-time, and a date
    with the [VALUE=DATE] parameter, whose start is parsed as the date but
    whose [allDay] is false. *)
Example parseICal_allDay_shapes :
  map allDay (parseICal sampleFeed) = [true; false]
  /\ parseICal valueDateFeed
     = [mkCalendarEvent "c3" "Holiday" "2024-01-01" "2024-01-02" false].
Proof. split; vm_compute; reflexivity. Qed.

(* ================================================================== *)
(** * The adapters: no result against no events                         *)
(* ================================================================== *)

Section Adapters.
Variable tza : Z.
Variable clock : nat -> Z.
Variable net : list Request -> Request -> FetchOutcome.

Lemma adapterCatch_fst label error w : fst (adapterCatch label error w) = Return None.
Proof.
  destruct (adapterCatch_null label error w) as (w' & -> & _). reflexivity.
Qed.

Ltac adapter_cases H :=
  run_js; rewrite H; run_js;
  repeat match goal with
         | Hx : ok _ = _ |- _ => rewrite Hx; cbn [negb]
         | Hx : text _ = _ |- _ => rewrite Hx
         | Hx : json _ = _ |- _ => rewrite Hx
         end;
  run_js; try apply adapterCatch_fst.

Lemma fetchICalEvents_rejected url w error :
  net (requests w) (GetICal url) = Rejected error ->
  fst (fetchICalEvents net url w) = Return None.
Proof. intros H. unfold fetchICalEvents. adapter_cases H. Qed.

Lemma fetchICalEvents_not_ok url w response :
  net (requests w) (GetICal url) = Resolved response ->
  ok response = false ->
  fst (fetchICalEvents net url w) = Return None.
Proof. intros H Hok. unfold fetchICalEvents. adapter_cases H. Qed.

Lemma fetchICalEvents_body_rejected url w response error :
  net (requests w) (GetICal url) = Resolved response ->
  ok response = true ->
  text response = inl error ->
  fst (fetchICalEvents net url w) = Return None.
Proof. intros H Hok Ht. unfold fetchICalEvents. adapter_cases H. Qed.

Lemma fetchICalEvents_parsed url w response doc :
  net (requests w) (GetICal url) = Resolved response ->
  ok response = true ->
  text response = inr doc ->
  fst (fetchICalEvents net url w) = Return (Some (parseICal doc)).
Proof. intros H Hok Ht. unfold fetchICalEvents. adapter_cases H. reflexivity. Qed.

Lemma fetchCalendarEvents_rejected calendarId apiKey maxResults w error :
  net (requests w) (eventsRequest tza calendarId apiKey maxResults (clock (ticks w)))
  = Rejected error ->
  fst (fetchCalendarEvents tza clock net calendarId apiKey maxResults w) = Return None.
Proof.
  unfold eventsRequest. intros H. unfold fetchCalendarEvents. adapter_cases H.
Qed.

Lemma fetchCalendarEvents_not_ok calendarId apiKey maxResults w response :
  net (requests w) (eventsRequest tza calendarId apiKey maxResults (clock (ticks w)))
  = Resolved response ->
  ok response = false ->
  fst (fetchCalendarEvents tza clock net calendarId apiKey maxResults w) = Return None.
Proof.
  unfold eventsRequest. intros H Hok. unfold fetchCalendarEvents. adapter_cases H.
Qed.

Lemma fetchCalendarEvents_body_rejected calendarId apiKey maxResults w response error :
  net (requests w) (eventsRequest tza calendarId apiKey maxResults (clock (ticks w)))
  = Resolved response ->
  ok response = true ->
  json response = inl error ->
  fst (fetchCalendarEvents tza clock net calendarId apiKey maxResults w) = Return None.
Proof.
  unfold eventsRequest. intros H Hok Hj. unfold fetchCalendarEvents. adapter_cases H.
Qed.

Lemma fetchCalendarEvents_mapped calendarId apiKey maxResults w response data :
  net (requests w) (eventsRequest tza calendarId apiKey maxResults (clock (ticks w)))
  = Resolved response ->
  ok response = true ->
  json response = inr data ->
  fst (fetchCalendarEvents tza clock net calendarId apiKey maxResults w)
  = Return (Some (eventsOfResponse data)).
Proof.
  unfold eventsRequest. intros H Hok Hj. unfold fetchCalendarEvents. adapter_cases H.
  reflexivity.
Qed.

End Adapters.

Lemma eventsOfResponse_no_items data :
  items data = None \/ items data = Some [] -> eventsOfResponse data = [].
Proof. unfold eventsOfResponse. intros [-> | ->]; reflexivity. Qed.

(** A successful response never gives [null]: it gives a list, as long as
    the items the response carries. *)
Lemma eventsOfResponse_length data its :
  items data = Some its -> List.length (eventsOfResponse data) = List.length its.
Proof.
  unfold eventsOfResponse. intros ->. destruct its; [reflexivity|].
  apply length_map.
Qed.

(** C7. For both adapters: when [fetch] rejects (a network failure, or the
    rejection by which an aborted render is signalled, whatever the message),
    when the response is not [ok], or when reading the body rejects, the
    adapter returns [null] and not an empty list; when a successful response
    carries no VEVENT block, respectively no items, it returns the empty list
    and not [null]. *)
Theorem adapters_null_or_empty tza clock net w url calendarId apiKey maxResults :
  let feed := fst (fetchICalEvents net url w) in
  let feedReply := net (requests w) (GetICal url) in
  let api := fst (fetchCalendarEvents tza clock net calendarId apiKey maxResults w) in
  let apiReply :=
    net (requests w) (eventsRequest tza calendarId apiKey maxResults (clock (ticks w))) in
  (forall error, feedReply = Rejected error -> feed = Return None)
  /\ (forall response,
         feedReply = Resolved response -> ok response = false -> feed = Return None)
  /\ (forall response error,
         feedReply = Resolved response -> ok response = true ->
         text response = inl error -> feed = Return None)
  /\ (forall response doc,
         feedReply = Resolved response -> ok response = true ->
         text response = inr doc -> tl (eventBlocks doc) = [] ->
         feed = Return (Some []))
  /\ (forall error, apiReply = Rejected error -> api = Return None)
  /\ (forall response,
         apiReply = Resolved response -> ok response = false -> api = Return None)
  /\ (forall response error,
         apiReply = Resolved response -> ok response = true ->
         json response = inl error -> api = Return None)
  /\ (forall response data,
         apiReply = Resolved response -> ok response = true ->
         json response = inr data ->
         items data = None \/ items data = Some [] ->
         api = Return (Some [])).
Proof.
  cbv zeta. repeat apply conj.
  - intros error H. exact (fetchICalEvents_rejected net url w error H).
  - intros response H Hok. exact (fetchICalEvents_not_ok net url w response H Hok).
  - intros response error H Hok Ht.
    exact (fetchICalEvents_body_rejected net url w response error H Hok Ht).
  - intros response doc H Hok Ht Hb.
    rewrite (fetchICalEvents_parsed net url w response doc H Hok Ht).
    unfold parseICal. rewrite Hb. reflexivity.
  - intros error H.
    exact (fetchCalendarEvents_rejected tza clock net calendarId apiKey maxResults w error H).
  - intros response H Hok.
    exact (fetchCalendarEvents_not_ok tza clock net calendarId apiKey maxResults w
             response H Hok).
  - intros response error H Hok Hj.
    exact (fetchCalendarEvents_body_rejected tza clock net calendarId apiKey maxResults w
             response error H Hok Hj).
  - intros response data H Hok Hj Hi.
    rewrite (fetchCalendarEvents_mapped tza clock net calendarId apiKey maxResults w
               response data H Hok Hj).
    rewrite (eventsOfResponse_no_items data Hi). reflexivity.
Qed.

(** A network that is down gives [null]; a feed without events gives the
    empty list. *)
Lemma adapters_null_or_empty_witness :
  (netDown (requests emptyWorld) (GetICal "https://calendar.example/feed.ics")
   = Rejected (ErrorObj "fetch failed")
   /\ fst (fetchICalEvents netDown "https://calendar.example/feed.ics" emptyWorld)
      = Return None)
  /\ (tl (eventBlocks emptyFeed) = []
      /\ fst (fetchICalEvents (netFeed emptyFeed) "https://calendar.example/feed.ics"
                emptyWorld)
         = Return (Some [])).
Proof.
  split; split.
  - reflexivity.
  - exact (proj1 (adapters_null_or_empty 0 stoppedClock netDown emptyWorld
                    "https://calendar.example/feed.ics" "primary" "" 50)
             (ErrorObj "fetch failed") eq_refl).
  - vm_compute. reflexivity.
  - refine (proj1 (proj2 (proj2 (proj2
              (adapters_null_or_empty 0 stoppedClock (netFeed emptyFeed) emptyWorld
                 "https://calendar.example/feed.ics" "primary" "" 50))))
              _ emptyFeed eq_refl eq_refl eq_refl _).
    vm_compute. reflexivity.
Defined.

(** The abort of a render is a rejection like any other for the result;
    only the console line is left out. *)
Example fetchICalEvents_aborted :
  fetchICalEvents
    (fun _ _ => Rejected (ErrorObj "fetch rejected: the prerender is complete"))
    "https://calendar.example/feed.ics" emptyWorld
  = (Return None, mkWorld 0 [GetICal "https://calendar.example/feed.ics"] [] []).
Proof. vm_compute. reflexivity. Qed.

Example fetchICalEvents_unavailable :
  fetchICalEvents netUnavailable "https://calendar.example/feed.ics" emptyWorld
  = (Return None,
     mkWorld 0 [GetICal "https://calendar.example/feed.ics"]
             ["Error fetching iCal events: iCal fetch responded with status: 503"] []).
Proof. vm_compute. reflexivity. Qed.

(* ================================================================== *)
(** * The two paths over the selected adapter                           *)
(* ================================================================== *)

Section Paths.
Variable tza : Z.
Variable DateParse : string -> option Z.
Variable clock : nat -> Z.
Variable net : list Request -> Request -> FetchOutcome.
Variable ICAL_URL : option string.
Variable API_KEY : option string.

Lemma fetchCalendarDataNoCache_feed params w r w1 :
  truthy (resolvedIcalUrl ICAL_URL params) = true ->
  fetchICalEvents net (valueOf (resolvedIcalUrl ICAL_URL params)) w = (Return r, w1) ->
  fetchCalendarDataNoCache tza DateParse clock net ICAL_URL API_KEY params w
  = (Return (uncachedResult tza DateParse r (clock (ticks w1))), ticked w1).
Proof.
  intros Ht Hr. unfold fetchCalendarDataNoCache. cbv zeta. rewrite Ht.
  run_js. rewrite Hr. destruct r; reflexivity.
Qed.

Lemma fetchCalendarDataNoCache_api params w r w1 :
  truthy (resolvedIcalUrl ICAL_URL params) = false ->
  isNonEmpty (resolvedApiKey API_KEY params) = true ->
  fetchCalendarEvents tza clock net (resolvedCalendarId params)
    (resolvedApiKey API_KEY params) (resolvedMaxResults params) w = (Return r, w1) ->
  fetchCalendarDataNoCache tza DateParse clock net ICAL_URL API_KEY params w
  = (Return (uncachedResult tza DateParse r (clock (ticks w1))), ticked w1).
Proof.
  intros Ht Hk Hr. unfold fetchCalendarDataNoCache. cbv zeta. rewrite Ht, Hk.
  run_js. rewrite Hr. destruct r; reflexivity.
Qed.

Lemma fetchCalendarDataNoCache_unconfigured params w :
  truthy (resolvedIcalUrl ICAL_URL params) = false ->
  isNonEmpty (resolvedApiKey API_KEY params) = false ->
  fetchCalendarDataNoCache tza DateParse clock net ICAL_URL API_KEY params w
  = (Return (emptyData (clock (ticks w))), ticked (logged noSourceWarning w)).
Proof.
  intros Ht Hk. unfold fetchCalendarDataNoCache. cbv zeta. rewrite Ht, Hk.
  reflexivity.
Qed.

Lemma computeCalendarData_feed params w r w1 :
  truthy (resolvedIcalUrl ICAL_URL params) = true ->
  fetchICalEvents net (valueOf (resolvedIcalUrl ICAL_URL params)) w = (Return r, w1) ->
  computeCalendarData tza DateParse clock net ICAL_URL API_KEY params w
  = match r with
    | None => (Throw noDataError, w1)
    | Some evs => (Return (weekData tza DateParse evs (clock (ticks w1))), ticked w1)
    end.
Proof.
  intros Ht Hr. unfold computeCalendarData. cbv zeta. rewrite Ht.
  run_js. rewrite Hr. destruct r; reflexivity.
Qed.

Lemma computeCalendarData_api params w r w1 :
  truthy (resolvedIcalUrl ICAL_URL params) = false ->
  isNonEmpty (resolvedApiKey API_KEY params) = true ->
  fetchCalendarEvents tza clock net (resolvedCalendarId params)
    (resolvedApiKey API_KEY params) (resolvedMaxResults params) w = (Return r, w1) ->
  computeCalendarData tza DateParse clock net ICAL_URL API_KEY params w
  = match r with
    | None => (Throw noDataError, w1)
    | Some evs => (Return (weekData tza DateParse evs (clock (ticks w1))), ticked w1)
    end.
Proof.
  intros Ht Hk Hr. unfold computeCalendarData. cbv zeta. rewrite Ht, Hk.
  run_js. rewrite Hr. destruct r; reflexivity.
Qed.

Lemma computeCalendarData_unconfigured params w :
  truthy (resolvedIcalUrl ICAL_URL params) = false ->
  isNonEmpty (resolvedApiKey API_KEY params) = false ->
  computeCalendarData tza DateParse clock net ICAL_URL API_KEY params w
  = (Throw noSourceError, w).
Proof.
  intros Ht Hk. unfold computeCalendarData. cbv zeta. rewrite Ht, Hk.
  reflexivity.
Qed.

Lemma uncachedResult_startDate r now :
  isISOString (startDate (uncachedResult tza DateParse r now)).
Proof.
  destruct r; cbn [uncachedResult emptyData weekData startDate].
  - eexists. unfold weekBoundsAt. cbn [timeMin]. reflexivity.
  - eexists. reflexivity.
Qed.


(** The function under the cache returns or throws, leaves the cache
    alone, and what it returns has an ISO string for [startDate]. *)
Lemma computeCalendarData_outcome params w :
  exists o w',
    computeCalendarData tza DateParse clock net ICAL_URL API_KEY params w = (o, w')
    /\ cache w' = cache w
    /\ (forall v, o = Return v -> isISOString (startDate v)).
Proof.
  destruct (truthy (resolvedIcalUrl ICAL_URL params)) eqn:Ht.
  - destruct (fetchICalEvents_returns net
                (valueOf (resolvedIcalUrl ICAL_URL params)) w)
      as (r & w1 & Hr & _ & _ & Hc).
    rewrite (computeCalendarData_feed params w r w1 Ht Hr).
    destruct r; eexists _, _; (split; [reflexivity|]); (split; [exact Hc|]);
      intros v Hv; [|discriminate].
    injection Hv as <-. apply (uncachedResult_startDate (Some l)).
  - destruct (isNonEmpty (resolvedApiKey API_KEY params)) eqn:Hk.
    + destruct (fetchCalendarEvents_returns tza clock net (resolvedCalendarId params)
                  (resolvedApiKey API_KEY params) (resolvedMaxResults params) w)
        as (r & w1 & Hr & _ & _ & Hc).
      rewrite (computeCalendarData_api params w r w1 Ht Hk Hr).
      destruct r; eexists _, _; (split; [reflexivity|]); (split; [exact Hc|]);
        intros v Hv; [|discriminate].
      injection Hv as <-. apply (uncachedResult_startDate (Some l)).
    + rewrite (computeCalendarData_unconfigured params w Ht Hk).
      eexists _, _. split; [reflexivity|]. split; [reflexivity|].
      intros v Hv. discriminate.
Qed.

(** The cache wrapper on a miss: the function runs after the clock read
    of the wrapper; its value is stored, its throw is passed on. *)
Lemma getCachedCalendarData_miss params w :
  cacheLookup params (cache w) = None ->
  getCachedCalendarData tza DateParse clock net ICAL_URL API_KEY params w
  = match computeCalendarData tza DateParse clock net ICAL_URL API_KEY params (ticked w) with
    | (Return v, w') => (Return v, stored params (clock (ticks w)) v w')
    | (Throw error, w') => (Throw error, w')
    end.
Proof.
  intros Hm. unfold getCachedCalendarData, unstable_cache. run_js.
  rewrite Hm. fold (ticked w).
  destruct (computeCalendarData tza DateParse clock net ICAL_URL API_KEY params (ticked w))
    as [[v | error] w']; reflexivity.
Qed.

(** When the cacheable path throws, the cache is as it was. *)
Lemma getCachedCalendarData_throw_keeps_cache params w error w' :
  getCachedCalendarData tza DateParse clock net ICAL_URL API_KEY params w
  = (Throw error, w') ->
  cache w' = cache w.
Proof.
  unfold getCachedCalendarData, unstable_cache. run_js. fold (ticked w).
  destruct (computeCalendarData_outcome params (ticked w)) as (o & w1 & Ho & Hc & _).
  destruct (cacheLookup params (cache w)) as [entry|].
  - destruct (clock (ticks w) - storedAt entry <? revalidateMs).
    + discriminate.
    + rewrite Ho. destruct o; [discriminate|].
      intros H. injection H as _ <-. exact Hc.
  - rewrite Ho. destruct o; [discriminate|].
    intros H. injection H as _ <-. exact Hc.
Qed.

End Paths.

(* ================================================================== *)
(** * Source selection, the cacheable path and [getData]                *)
(* ================================================================== *)

(** Without a source and without a cached entry, [getData] makes no
    request and returns no events. *)
Lemma getData_unconfigured tza DateParse clock net ICAL_URL API_KEY params w :
  cacheLookup params (cache w) = None ->
  truthy (resolvedIcalUrl ICAL_URL params) = false ->
  isNonEmpty (resolvedApiKey API_KEY params) = false ->
  getData tza DateParse clock net ICAL_URL API_KEY params w
  = (Return (emptyData (clock (S (ticks w)))),
     ticked (logged noSourceWarning
               (logged ("Cache skipped or error: " ++ errorMessageOf noSourceError)
                       (ticked w)))).
Proof.
  intros Hm Ht Hk. unfold getData, tryCatch.
  rewrite (getCachedCalendarData_miss tza DateParse clock net ICAL_URL API_KEY params w Hm).
  rewrite (computeCalendarData_unconfigured tza DateParse clock net ICAL_URL API_KEY
             params (ticked w) Ht Hk).
  run_js.
  match goal with
  | |- fetchCalendarDataNoCache _ _ _ _ _ _ _ ?w0 = _ =>
      rewrite (fetchCalendarDataNoCache_unconfigured tza DateParse clock net
                 ICAL_URL API_KEY params w0 Ht Hk)
  end.
  reflexivity.
Qed.

(** C4. Source selection in both paths, for every configuration: with a
    feed URL (a non-empty [icalUrl], from the parameters or the environment)
    the one request made is the feed request; otherwise, with a non-empty API
    key, the one request made is the events request of the remote API;
    otherwise no request is made, the uncached path returns the empty event
    list with the current time, the cacheable path throws, and [getData], when
    nothing is cached for the parameters, returns the empty event list. *)
Theorem source_selection_precedence tza DateParse clock net ICAL_URL API_KEY params w :
  let icalUrl := resolvedIcalUrl ICAL_URL params in
  let apiKey := resolvedApiKey API_KEY params in
  let feedRequest := GetICal (valueOf icalUrl) in
  let apiRequest :=
    eventsRequest tza (resolvedCalendarId params) apiKey (resolvedMaxResults params)
                  (clock (ticks w)) in
  let uncached := fetchCalendarDataNoCache tza DateParse clock net ICAL_URL API_KEY params w in
  let cacheable := computeCalendarData tza DateParse clock net ICAL_URL API_KEY params w in
  (truthy icalUrl = true ->
   requests (snd uncached) = (requests w ++ [feedRequest])%list
   /\ requests (snd cacheable) = (requests w ++ [feedRequest])%list)
  /\ (truthy icalUrl = false -> isNonEmpty apiKey = true ->
      requests (snd uncached) = (requests w ++ [apiRequest])%list
      /\ requests (snd cacheable) = (requests w ++ [apiRequest])%list)
  /\ (truthy icalUrl = false -> isNonEmpty apiKey = false ->
      requests (snd uncached) = requests w
      /\ fst uncached = Return (mkCalendarData [] (JsDate.toISOString (clock (ticks w))))
      /\ cacheable = (Throw noSourceError, w)
      /\ (cacheLookup params (cache w) = None ->
          exists w',
            getData tza DateParse clock net ICAL_URL API_KEY params w
            = (Return (mkCalendarData [] (JsDate.toISOString (clock (S (ticks w))))), w')
            /\ requests w' = requests w)).
Proof.
  cbv zeta. repeat apply conj.
  - intros Ht.
    destruct (fetchICalEvents_returns net (valueOf (resolvedIcalUrl ICAL_URL params)) w)
      as (r & w1 & Hr & _ & Hq & _).
    rewrite (fetchCalendarDataNoCache_feed tza DateParse clock net ICAL_URL API_KEY
               params w r w1 Ht Hr).
    rewrite (computeCalendarData_feed tza DateParse clock net ICAL_URL API_KEY
               params w r w1 Ht Hr).
    split; [exact Hq|]. destruct r; exact Hq.
  - intros Ht Hk.
    destruct (fetchCalendarEvents_returns tza clock net (resolvedCalendarId params)
                (resolvedApiKey API_KEY params) (resolvedMaxResults params) w)
      as (r & w1 & Hr & _ & Hq & _).
    rewrite (fetchCalendarDataNoCache_api tza DateParse clock net ICAL_URL API_KEY
               params w r w1 Ht Hk Hr).
    rewrite (computeCalendarData_api tza DateParse clock net ICAL_URL API_KEY
               params w r w1 Ht Hk Hr).
    split; [exact Hq|]. destruct r; exact Hq.
  - intros Ht Hk.
    rewrite (fetchCalendarDataNoCache_unconfigured tza DateParse clock net ICAL_URL
               API_KEY params w Ht Hk).
    rewrite (computeCalendarData_unconfigured tza DateParse clock net ICAL_URL
               API_KEY params w Ht Hk).
    split; [reflexivity|]. split; [reflexivity|]. split; [reflexivity|].
    intros Hm.
    rewrite (getData_unconfigured tza DateParse clock net ICAL_URL API_KEY params w
               Hm Ht Hk).
    eexists. split; reflexivity.
Qed.

(** With the feed URL in the parameters the feed is fetched, although an
    API key is set in the environment. *)
Lemma source_selection_precedence_witness :
  truthy (resolvedIcalUrl None feedParams) = true
  /\ requests (snd (fetchCalendarDataNoCache 0 (IsoDate.parse 0) stoppedClock
                      (netFeed sampleFeed) None (Some "key-123") feedParams emptyWorld))
     = [GetICal "https://calendar.example/feed.ics"]
  /\ requests (snd (computeCalendarData 0 (IsoDate.parse 0) stoppedClock
                      (netFeed sampleFeed) None (Some "key-123") feedParams emptyWorld))
     = [GetICal "https://calendar.example/feed.ics"].
Proof.
  split; [reflexivity|].
  exact (proj1 (source_selection_precedence 0 (IsoDate.parse 0) stoppedClock
                  (netFeed sampleFeed) None (Some "key-123") feedParams emptyWorld)
               eq_refl).
Defined.

Example fetchCalendarDataNoCache_sampleFeed :
  fst (fetchCalendarDataNoCache 0 (IsoDate.parse 0) stoppedClock
         (netFeed sampleFeed) None (Some "key-123") feedParams emptyWorld)
  = Return (mkCalendarData
              [mkCalendarEvent "a1" "New Year" "2024-01-01" "2024-01-02" true;
               mkCalendarEvent "event-3" "Stand-up" "2024-01-03T09:00:00"
                               "2024-01-03T10:00:00" false]
              "2024-01-01T00:00:00.000Z").
Proof. vm_compute. reflexivity. Qed.

Example fetchCalendarDataNoCache_api_key :
  requests (snd (fetchCalendarDataNoCache 0 (IsoDate.parse 0) stoppedClock
                   netDown None (Some "key-123") None emptyWorld))
  = [GetGoogleEvents "primary"
       [("key", "key-123");
        ("timeMin", "2024-01-01T00:00:00.000Z");
        ("timeMax", "2024-01-08T23:59:59.999Z");
        ("maxResults", "50");
        ("singleEvents", "true");
        ("orderBy", "startTime")]].
Proof. vm_compute. reflexivity. Qed.

(* ------------------------------------------------------------------ *)
(** ** What the cacheable path declines to store                        *)
(* ------------------------------------------------------------------ *)

(** Without a source, and when the adapter returns [null], the function
    under the cache throws, and the cache wrapper stores nothing. *)
Lemma computeCalendarData_declines_null tza DateParse clock net ICAL_URL API_KEY params w w1 :
  (truthy (resolvedIcalUrl ICAL_URL params) = true ->
   fetchICalEvents net (valueOf (resolvedIcalUrl ICAL_URL params)) w = (Return None, w1) ->
   computeCalendarData tza DateParse clock net ICAL_URL API_KEY params w
   = (Throw noDataError, w1))
  /\ (truthy (resolvedIcalUrl ICAL_URL params) = false ->
      isNonEmpty (resolvedApiKey API_KEY params) = true ->
      fetchCalendarEvents tza clock net (resolvedCalendarId params)
        (resolvedApiKey API_KEY params) (resolvedMaxResults params) w = (Return None, w1) ->
      computeCalendarData tza DateParse clock net ICAL_URL API_KEY params w
      = (Throw noDataError, w1))
  /\ (truthy (resolvedIcalUrl ICAL_URL params) = false ->
      isNonEmpty (resolvedApiKey API_KEY params) = false ->
      computeCalendarData tza DateParse clock net ICAL_URL API_KEY params w
      = (Throw noSourceError, w)).
Proof.
  repeat apply conj.
  - intros Ht Hr.
    exact (computeCalendarData_feed tza DateParse clock net ICAL_URL API_KEY
             params w None w1 Ht Hr).
  - intros Ht Hk Hr.
    exact (computeCalendarData_api tza DateParse clock net ICAL_URL API_KEY
             params w None w1 Ht Hk Hr).
  - apply computeCalendarData_unconfigured.
Qed.

(** An adapter result that is the empty list is not declined: [!events]
    is false for an empty array, the function returns the empty list, and the
    wrapper stores it. *)
Lemma computeCalendarData_keeps_empty_list tza DateParse clock net ICAL_URL API_KEY params w w1 :
  truthy (resolvedIcalUrl ICAL_URL params) = true ->
  fetchICalEvents net (valueOf (resolvedIcalUrl ICAL_URL params)) w = (Return (Some []), w1) ->
  computeCalendarData tza DateParse clock net ICAL_URL API_KEY params w
  = (Return (mkCalendarData [] (timeMin (weekBoundsAt tza (clock (ticks w1))))), ticked w1).
Proof.
  intros Ht Hr.
  exact (computeCalendarData_feed tza DateParse clock net ICAL_URL API_KEY
           params w (Some []) w1 Ht Hr).
Qed.

(** C2. The cacheable path on a feed that is served but holds no event:
    the adapter returns the empty list, the function under the cache returns
    [{events: [], startDate}] instead of throwing, and the value is stored
    under the parameters.  (Without a source and on [null] it does throw, see
    [computeCalendarData_declines_null].) *)
Theorem cacheable_path_stores_empty_list :
  fst (fetchICalEvents (netFeed emptyFeed) "https://calendar.example/feed.ics"
         (ticked emptyWorld))
  = Return (Some [])
  /\ getCachedCalendarData 0 (IsoDate.parse 0) stoppedClock (netFeed emptyFeed)
       None None feedParams emptyWorld
     = (Return (mkCalendarData [] "2024-01-01T00:00:00.000Z"),
        mkWorld 2 [GetICal "https://calendar.example/feed.ics"] []
                [(feedParams,
                  mkCacheEntry wednesdayNoon
                               (mkCalendarData [] "2024-01-01T00:00:00.000Z"))]).
Proof. split; vm_compute; reflexivity. Qed.

(* ------------------------------------------------------------------ *)
(** ** [getData] never throws                                           *)
(* ------------------------------------------------------------------ *)



Example getData_network_down :
  fst (getData 0 (IsoDate.parse 0) stoppedClock netDown None None feedParams emptyWorld)
  = Return (mkCalendarData [] "2024-01-03T12:00:00.000Z")
  /\ requests (snd (getData 0 (IsoDate.parse 0) stoppedClock netDown None None
                      feedParams emptyWorld))
     = [GetICal "https://calendar.example/feed.ics";
        GetICal "https://calendar.example/feed.ics"]
  /\ cache (snd (getData 0 (IsoDate.parse 0) stoppedClock netDown None None
                   feedParams emptyWorld)) = [].
Proof. repeat split; vm_compute; reflexivity. Qed.

(** Three items of the remote API, one of them outside the week: the two
    of the week are kept, each with its own day. *)
Example getData_remote_api :
  fst (getData 0 (IsoDate.parse 0) stoppedClock
         (netEvents
            (mkGoogleCalendarResponse
               (Some [mkGoogleCalendarEvent "g1" (Some "Review")
                        (mkGoogleTime (Some "2024-01-02T10:00:00Z") None)
                        (mkGoogleTime (Some "2024-01-02T11:00:00Z") None);
                      mkGoogleCalendarEvent "g2" None
                        (mkGoogleTime None (Some "2024-01-04"))
                        (mkGoogleTime None (Some "2024-01-05"));
                      mkGoogleCalendarEvent "g3" (Some "Later")
                        (mkGoogleTime (Some "2024-01-20T10:00:00Z") None)
                        (mkGoogleTime (Some "2024-01-20T11:00:00Z") None)])))
         None (Some "key-123") None emptyWorld)
  = Return (mkCalendarData
              [mkCalendarEvent "g1" "Review" "2024-01-02T10:00:00Z"
                               "2024-01-02T11:00:00Z" false;
               mkCalendarEvent "g2" "Untitled Event" "2024-01-04" "2024-01-05" true]
              "2024-01-01T00:00:00.000Z").
Proof. vm_compute. reflexivity. Qed.

(* ================================================================== *)
(** * The week of the grid: columns and lanes                           *)
(* ================================================================== *)

Module GridFacts.
Import JsDate JsDateFacts.

Lemma civilFromDays_inj a b : civilFromDays a = civilFromDays b -> a = b.
Proof.
  intros H. rewrite <- (daysFromCivil_civilFromDays a), <- (daysFromCivil_civilFromDays b).
  rewrite H. reflexivity.
Qed.

Lemma civil_eta c : c = mkCivil (c_year c) (c_month c) (c_day c).
Proof. destruct c; reflexivity. Qed.

(** Two valid dates are the same day exactly when their local day numbers
    agree. *)
Lemma isSameDay_eqb tza a b :
  isSameDay tza (Some a) (Some b)
  = (Day (LocalTime tza a) =? Day (LocalTime tza b)).
Proof.
  unfold isSameDay, getFullYear, getMonth, getDate, YearFromTime, MonthFromTime, DateFromTime.
  set (x := Day (LocalTime tza a)). set (y := Day (LocalTime tza b)).
  destruct (Z.eqb_spec x y) as [-> | Hne].
  - rewrite !Z.eqb_refl. reflexivity.
  - apply not_true_is_false. intros H.
    apply andb_true_iff in H. destruct H as [H H3].
    apply andb_true_iff in H. destruct H as [H1 H2].
    apply Z.eqb_eq in H1, H2, H3.
    apply Hne, civilFromDays_inj.
    rewrite (civil_eta (civilFromDays x)), (civil_eta (civilFromDays y)).
    f_equal; lia.
Qed.

Lemma daysBack_range day : 0 <= day <= 6 -> 0 <= daysBack day <= 6.
Proof.
  intros H. unfold daysBack. destruct (day =? 0) eqn:E; [|apply Z.eqb_neq in E]; lia.
Qed.

(** On a valid date [getWeekStart] goes back to the Monday and keeps the
    time of day. *)
Lemma getWeekStart_valid tza d :
  setDate tza d (getDate tza d - getDay tza d + (if getDay tza d =? 0 then -6 else 1))
  = d - daysBack (getDay tza d) * msPerDay.
Proof.
  replace (getDate tza d - getDay tza d + (if getDay tza d =? 0 then -6 else 1))
    with (getDate tza d + (- daysBack (getDay tza d)))
    by (unfold daysBack; destruct (getDay tza d =? 0) eqn:E;
        [apply Z.eqb_eq in E|]; lia).
  rewrite setDate_getDate. lia.
Qed.

Lemma getDay_shift tza d k : getDay tza (d + k * msPerDay) = (getDay tza d + k) mod 7.
Proof.
  unfold getDay, WeekDay.
  replace (LocalTime tza (d + k * msPerDay)) with (LocalTime tza d + k * msPerDay)
    by (rewrite !LocalTime_eq; lia).
  rewrite Day_shift.
  set (n := Day (LocalTime tza d)). clearbody n. div_lia.
Qed.

Lemma Day_LocalTime_shift tza d k :
  Day (LocalTime tza (d + k * msPerDay)) = Day (LocalTime tza d) + k.
Proof.
  replace (LocalTime tza (d + k * msPerDay)) with (LocalTime tza d + k * msPerDay)
    by (rewrite !LocalTime_eq; lia).
  apply Day_shift.
Qed.

Lemma getWeekStart_monday tza d :
  getDay tza (d - daysBack (getDay tza d) * msPerDay) = 1.
Proof.
  replace (d - daysBack (getDay tza d) * msPerDay)
    with (d + (- daysBack (getDay tza d)) * msPerDay) by lia.
  rewrite getDay_shift.
  pose proof (WeekBoundsFacts.getDay_range tza d) as Hr.
  unfold daysBack. set (g := getDay tza d) in *. clearbody g.
  destruct (g =? 0) eqn:E; [apply Z.eqb_eq in E | apply Z.eqb_neq in E]; div_lia.
Qed.

End GridFacts.

(* ------------------------------------------------------------------ *)
(** ** The seven columns                                                *)
(* ------------------------------------------------------------------ *)

(** X1. For every valid date the grid is given (or the current time when
    none is given), [getWeekStart] is a Monday, at most six days before
    that date and with its time of day, and [weekDays] are that Monday and
    the six days after it, so the columns run from Monday to Sunday. *)
Theorem weekDays_monday_to_sunday tza DateParse now date d :
  dateOrNow DateParse now date = Some d ->
  exists ws,
    getWeekStart tza DateParse now date = Some ws
    /\ JsDate.getDay tza ws = 1
    /\ ws <= d < ws + 7 * JsDate.msPerDay
    /\ JsDate.TimeWithinDay (JsDate.LocalTime tza ws)
       = JsDate.TimeWithinDay (JsDate.LocalTime tza d)
    /\ weekDays tza (Some ws)
       = map (fun i => Some (ws + Z.of_nat i * JsDate.msPerDay)) (seq 0 7)
    /\ map (option_map (JsDate.getDay tza)) (weekDays tza (Some ws))
       = [Some 1; Some 2; Some 3; Some 4; Some 5; Some 6; Some 0].
Proof.
  intros Hd. unfold dateOrNow in Hd.
  exists (d - daysBack (JsDate.getDay tza d) * JsDate.msPerDay).
  pose proof (GridFacts.getWeekStart_monday tza d) as Hmon.
  pose proof (GridFacts.daysBack_range _ (WeekBoundsFacts.getDay_range tza d)) as Hb.
  set (ws := d - daysBack (JsDate.getDay tza d) * JsDate.msPerDay) in *.
  assert (Hdays : weekDays tza (Some ws)
                  = map (fun i => Some (ws + Z.of_nat i * JsDate.msPerDay)) (seq 0 7)).
  { unfold weekDays. apply map_ext. intros i.
    rewrite JsDateFacts.setDate_getDate. reflexivity. }
  split.
  { unfold getWeekStart. rewrite Hd. rewrite GridFacts.getWeekStart_valid. reflexivity. }
  split; [exact Hmon|].
  split.
  { subst ws. rewrite JsDateFacts.msPerDay_eq. lia. }
  split.
  { subst ws. unfold JsDate.TimeWithinDay. rewrite !JsDateFacts.LocalTime_eq.
    rewrite JsDateFacts.msPerDay_eq.
    set (k := daysBack (JsDate.getDay tza d)). clearbody k.
    JsDateFacts.div_lia. }
  split; [exact Hdays|].
  rewrite Hdays. cbn [seq map option_map].
  rewrite !GridFacts.getDay_shift, Hmon. reflexivity.
Qed.

Lemma weekDays_monday_to_sunday_witness :
  dateOrNow (IsoDate.parse utcPlusOne) 0 (Some "2024-01-07T11:00:00.000Z")
  = Some 1704625200000
  /\ exists ws,
       getWeekStart utcPlusOne (IsoDate.parse utcPlusOne) 0
         (Some "2024-01-07T11:00:00.000Z") = Some ws
       /\ JsDate.getDay utcPlusOne ws = 1
       /\ ws <= 1704625200000 < ws + 7 * JsDate.msPerDay
       /\ JsDate.TimeWithinDay (JsDate.LocalTime utcPlusOne ws)
          = JsDate.TimeWithinDay (JsDate.LocalTime utcPlusOne 1704625200000)
       /\ weekDays utcPlusOne (Some ws)
          = map (fun i => Some (ws + Z.of_nat i * JsDate.msPerDay)) (seq 0 7)
       /\ map (option_map (JsDate.getDay utcPlusOne)) (weekDays utcPlusOne (Some ws))
          = [Some 1; Some 2; Some 3; Some 4; Some 5; Some 6; Some 0].
Proof.
  split; [reflexivity|].
  exact (weekDays_monday_to_sunday utcPlusOne (IsoDate.parse utcPlusOne) 0
           (Some "2024-01-07T11:00:00.000Z") 1704625200000 eq_refl).
Defined.

Example formatDayHeader_week :
  map (formatDayHeader 0)
      (weekDays 0 (getWeekStart 0 (IsoDate.parse 0) 0 (Some "2024-03-17T12:00:00.000Z")))
  = ["Mon 3/11"; "Tue 3/12"; "Wed 3/13"; "Thu 3/14"; "Fri 3/15"; "Sat 3/16"; "Sun 3/17"].
Proof. vm_compute. reflexivity. Qed.

(** With an invalid [startDate] every column is an invalid date and holds
    no event. *)
Lemma getEventsForDay_invalid_day tza DateParse evs :
  getEventsForDay tza DateParse evs None = [].
Proof.
  unfold getEventsForDay. induction evs as [|e evs IH]; [reflexivity|].
  cbn [filter]. unfold isSameDay at 1.
  destruct (parseEventDate tza DateParse (start e)); exact IH.
Qed.

Lemma length_flat_map_filter_cons {A B} (p : A -> B -> bool) (e : A) (l : list A)
  (ds : list B) :
  List.length (flat_map (fun d => filter (fun x => p x d) (e :: l)) ds)
  = (List.length (filter (p e) ds)
     + List.length (flat_map (fun d => filter (fun x => p x d) l) ds))%nat.
Proof.
  induction ds as [|d ds IH]; [reflexivity|].
  cbn [flat_map]. rewrite !length_app, IH.
  cbn [filter]. destruct (p e d); cbn [List.length]; lia.
Qed.

(** The number of columns an event with a valid start is shown in. *)
Lemma columns_of_start tza ws t :
  List.length (filter (isSameDay tza (Some t)) (weekDays tza (Some ws)))
  = if ((0 <=? JsDate.Day (JsDate.LocalTime tza t) - JsDate.Day (JsDate.LocalTime tza ws))
        && (JsDate.Day (JsDate.LocalTime tza t) - JsDate.Day (JsDate.LocalTime tza ws) <? 7))%bool
    then 1%nat else 0%nat.
Proof.
  unfold weekDays. cbn [seq map filter].
  rewrite !JsDateFacts.setDate_getDate.
  rewrite !GridFacts.isSameDay_eqb, !GridFacts.Day_LocalTime_shift.
  set (x := JsDate.Day (JsDate.LocalTime tza t)).
  set (y := JsDate.Day (JsDate.LocalTime tza ws)).
  clearbody x y.
  destruct (Z.leb_spec 0 (x - y)); destruct (Z.ltb_spec (x - y) 7); cbn [andb];
    repeat match goal with
           | |- context [?a =? ?b] => destruct (Z.eqb_spec a b)
           end;
    cbn [List.length]; try reflexivity; lia.
Qed.

Lemma columns_of_event tza DateParse ws event :
  List.length (filter (isSameDay tza (parseEventDate tza DateParse (start event)))
                      (weekDays tza (Some ws)))
  = if startsInWeek tza DateParse ws event then 1%nat else 0%nat.
Proof.
  unfold startsInWeek.
  destruct (parseEventDate tza DateParse (start event)) as [t|].
  - apply columns_of_start.
  - reflexivity.
Qed.

(** X2. Over the seven columns of a week, every event whose start falls on
    one of the seven local days from [weekStart] on is listed in exactly one
    column, and every other event, also one whose start is not a valid date,
    is listed in no column; so the columns together list as many events as
    start in the week. *)
Theorem every_event_in_one_column tza DateParse ws evs :
  (forall event,
      List.length (filter (isSameDay tza (parseEventDate tza DateParse (start event)))
                          (weekDays tza (Some ws)))
      = if startsInWeek tza DateParse ws event then 1%nat else 0%nat)
  /\ List.length (flat_map (getEventsForDay tza DateParse evs) (weekDays tza (Some ws)))
     = List.length (filter (startsInWeek tza DateParse ws) evs).
Proof.
  split; [intros event; apply columns_of_event|].
  unfold getEventsForDay.
  induction evs as [|e evs IH].
  - induction (weekDays tza (Some ws)) as [|d ds IHd]; [reflexivity | exact IHd].
  - rewrite (length_flat_map_filter_cons
               (fun x d => isSameDay tza (parseEventDate tza DateParse (start x)) d)).
    rewrite IH, columns_of_event. cbn [filter].
    destruct (startsInWeek tza DateParse ws e); reflexivity.
Qed.

Example every_event_in_one_column_ex :
  map (fun day => map id (getEventsForDay 0 (IsoDate.parse 0)
                            [timedEvent "2024-01-02T10:00:00Z" "2024-01-02T11:00:00Z";
                             mkCalendarEvent "g2" "Untitled Event" "2024-01-04" "2024-01-05" true;
                             timedEvent "2024-01-08T09:00:00Z" "2024-01-08T10:00:00Z";
                             timedEvent "" ""]
                            day))
      (weekDays 0 (Some 1704067200000))
  = [[]; ["event-1"]; []; ["g2"]; []; []; []].
Proof. vm_compute. reflexivity. Qed.

(* ------------------------------------------------------------------ *)
(** ** The two lanes of a day                                           *)
(* ------------------------------------------------------------------ *)

Lemma filter_negb_length {A} (p : A -> bool) (l : list A) :
  (List.length (filter p l) + List.length (filter (fun x => negb (p x)) l))%nat
  = List.length l.
Proof.
  induction l as [|x l IH]; [reflexivity|].
  cbn [filter]. destruct (p x); cbn [negb List.length]; lia.
Qed.

(** X3. The all-day lane and the timed lane of a day split the events of
    that day: an event of the day is in one of the two lanes, never in both,
    and the lanes have no other events. *)
Theorem lanes_split_the_day tza DateParse evs day :
  (forall e,
      In e (getEventsForDay tza DateParse evs day)
      <-> In e (getAllDayEvents tza DateParse evs day)
          \/ In e (getTimedEvents tza DateParse evs day))
  /\ (forall e,
         In e (getAllDayEvents tza DateParse evs day) ->
         In e (getTimedEvents tza DateParse evs day) -> False)
  /\ (List.length (getAllDayEvents tza DateParse evs day)
      + List.length (getTimedEvents tza DateParse evs day))%nat
     = List.length (getEventsForDay tza DateParse evs day).
Proof.
  unfold getAllDayEvents, getTimedEvents.
  set (l := getEventsForDay tza DateParse evs day). clearbody l.
  repeat apply conj.
  - intros e. rewrite !filter_In. split.
    + intros H. destruct (allDay e) eqn:E; [left | right]; split; auto.
    + intros [[H _] | [H _]]; exact H.
  - intros e H1 H2. apply filter_In in H1, H2.
    destruct H1 as [_ H1], H2 as [_ H2]. rewrite H1 in H2. discriminate.
  - apply filter_negb_length.
Qed.

(* ------------------------------------------------------------------ *)
(** ** Rows and their labels                                            *)
(* ------------------------------------------------------------------ *)

Lemma timeSlots_nth h b :
  7 <= h <= 20 -> 0 <= b <= 1 ->
  nth_error timeSlots (Z.to_nat ((h - 7) * 2 + b)) = Some (mkTimeSlot h (30 * b)).
Proof.
  intros Hh Hb.
  assert (Hc : h = 7 \/ h = 8 \/ h = 9 \/ h = 10 \/ h = 11 \/ h = 12 \/ h = 13
               \/ h = 14 \/ h = 15 \/ h = 16 \/ h = 17 \/ h = 18 \/ h = 19 \/ h = 20)
    by lia.
  assert (Hd : b = 0 \/ b = 1) by lia.
  repeat (destruct Hc as [-> | Hc]); try subst h; destruct Hd as [-> | ->]; reflexivity.
Qed.

(** X4. A timed event whose start is a valid date between 07:00 and 20:59
    local time is placed on the row of the grid of its own half hour: [top]
    is the index in [timeSlots] of the slot with the hour of the start and
    the minute 0 or 30 at or before it. *)
Theorem event_row_is_its_half_hour tza DateParse event s :
  parseEventDate tza DateParse (start event) = Some s ->
  7 <= JsDate.getHours tza s <= 20 ->
  exists k,
    top (getEventStyle tza DateParse event) = Some k
    /\ 0 <= k < Z.of_nat (List.length timeSlots)
    /\ nth_error timeSlots (Z.to_nat k)
       = Some (mkTimeSlot (JsDate.getHours tza s)
                          (if 30 <=? JsDate.getMinutes tza s then 30 else 0)).
Proof.
  intros Hs Hh. unfold getEventStyle. cbn [top]. rewrite Hs. cbn [option_map].
  rewrite slotOf_valid. eexists. split; [reflexivity|].
  set (h := JsDate.getHours tza s) in *. clearbody h.
  destruct (30 <=? JsDate.getMinutes tza s).
  - split; [cbn; lia|]. exact (timeSlots_nth h 1 Hh ltac:(lia)).
  - split; [cbn; lia|]. exact (timeSlots_nth h 0 Hh ltac:(lia)).
Qed.

Lemma event_row_is_its_half_hour_witness :
  parseEventDate utcPlusOne (IsoDate.parse utcPlusOne) "2024-01-03T09:45:00"
  = Some 1704271500000
  /\ 7 <= JsDate.getHours utcPlusOne 1704271500000 <= 20
  /\ exists k,
       top (getEventStyle utcPlusOne (IsoDate.parse utcPlusOne)
              (timedEvent "2024-01-03T09:45:00" "2024-01-03T10:15:00")) = Some k
       /\ 0 <= k < 28
       /\ nth_error timeSlots (Z.to_nat k) = Some (mkTimeSlot 9 30).
Proof.
  assert (H1 : parseEventDate utcPlusOne (IsoDate.parse utcPlusOne) "2024-01-03T09:45:00"
               = Some 1704271500000) by (vm_compute; reflexivity).
  assert (H2 : 7 <= JsDate.getHours utcPlusOne 1704271500000 <= 20)
    by (vm_compute; split; discriminate).
  split; [exact H1|]. split; [exact H2|].
  exact (event_row_is_its_half_hour utcPlusOne (IsoDate.parse utcPlusOne)
           (timedEvent "2024-01-03T09:45:00" "2024-01-03T10:15:00")
           1704271500000 H1 H2
         <: exists k,
              top (getEventStyle utcPlusOne (IsoDate.parse utcPlusOne)
                     (timedEvent "2024-01-03T09:45:00" "2024-01-03T10:15:00")) = Some k
              /\ 0 <= k < 28
              /\ nth_error timeSlots (Z.to_nat k) = Some (mkTimeSlot 9 30)).
Defined.

Lemma hoursOfDay_In h : 0 <= h <= 23 -> In h hoursOfDay.
Proof.
  intros H. unfold hoursOfDay. apply in_map_iff. exists (Z.to_nat h).
  split; [lia|]. apply in_seq. lia.
Qed.

(** X5. The labels of the rows: a half-hour row has no label, and the
    labels of the 24 hours of a day on the full hour are pairwise different
    (12am, 1am ... 11am, 12pm, 1pm ... 11pm). *)
Theorem formatTime_labels h1 h2 m :
  (m <> 0 -> formatTime h1 m = "")
  /\ (0 <= h1 <= 23 -> 0 <= h2 <= 23 ->
      formatTime h1 0 = formatTime h2 0 -> h1 = h2).
Proof.
  split.
  - intros Hm. unfold formatTime. apply Z.eqb_neq in Hm. rewrite Hm. reflexivity.
  - intros H1 H2 Heq.
    assert (Hall : forallb (fun a => forallb (fun b =>
                      implb (String.eqb (formatTime a 0) (formatTime b 0)) (a =? b))
                      hoursOfDay) hoursOfDay = true) by (vm_compute; reflexivity).
    rewrite forallb_forall in Hall. specialize (Hall h1 (hoursOfDay_In h1 H1)).
    rewrite forallb_forall in Hall. specialize (Hall h2 (hoursOfDay_In h2 H2)).
    apply String.eqb_eq in Heq. rewrite Heq in Hall. cbn [implb] in Hall.
    apply Z.eqb_eq. exact Hall.
Qed.

Lemma formatTime_labels_witness :
  (30 <> 0 -> formatTime 13 30 = "")
  /\ (0 <= 13 <= 23 -> 0 <= 13 <= 23 -> formatTime 13 0 = formatTime 13 0 -> 13 = 13)
  /\ map (fun slot => formatTime (hour slot) (minute slot)) timeSlots
     = ["7am"; ""; "8am"; ""; "9am"; ""; "10am"; ""; "11am"; ""; "12pm"; "";
        "1pm"; ""; "2pm"; ""; "3pm"; ""; "4pm"; ""; "5pm"; ""; "6pm"; "";
        "7pm"; ""; "8pm"; ""].
Proof.
  split; [exact (proj1 (formatTime_labels 13 13 30))|].
  split; [exact (proj2 (formatTime_labels 13 13 30))|].
  vm_compute. reflexivity.
Defined.

(* ================================================================== *)
(** * The week window over a week                                       *)
(* ================================================================== *)

Lemma monday_day_number tza now :
  (JsDate.Day (JsDate.LocalTime tza now) - daysBack (JsDate.getDay tza now) + 4) mod 7 = 1.
Proof.
  unfold JsDate.getDay, JsDate.WeekDay, daysBack.
  set (n := JsDate.Day (JsDate.LocalTime tza now)). clearbody n.
  destruct ((n + 4) mod 7 =? 0) eqn:E;
    [apply Z.eqb_eq in E | apply Z.eqb_neq in E]; JsDateFacts.div_lia.
Qed.

Lemma daysBack_of_offset m j :
  (m + 4) mod 7 = 1 -> 0 <= j <= 6 -> daysBack ((m + j + 4) mod 7) = j.
Proof.
  intros Hm Hj. unfold daysBack.
  destruct ((m + j + 4) mod 7 =? 0) eqn:E;
    [apply Z.eqb_eq in E | apply Z.eqb_neq in E]; JsDateFacts.div_lia.
Qed.

Lemma Day_between x m :
  m * 86400000 <= x < m * 86400000 + 7 * 86400000 ->
  0 <= x / 86400000 - m <= 6.
Proof. intros H. JsDateFacts.div_lia. Qed.

Lemma weekStartOf_same_week tza now now' :
  weekStartOf tza now <= now' < weekStartOf tza now + 7 * JsDate.msPerDay ->
  weekStartOf tza now' = weekStartOf tza now.
Proof.
  intros Hin.
  pose proof (WeekBoundsFacts.weekStartOf_local tza now) as H1.
  pose proof (WeekBoundsFacts.weekStartOf_local tza now') as H2.
  pose proof (monday_day_number tza now) as Hmon.
  set (m := JsDate.Day (JsDate.LocalTime tza now) - daysBack (JsDate.getDay tza now)) in *.
  clearbody m.
  rewrite JsDateFacts.LocalTime_eq in H1. rewrite JsDateFacts.msPerDay_eq in H1, Hin.
  assert (Hj : 0 <= JsDate.Day (JsDate.LocalTime tza now') - m <= 6).
  { rewrite JsDateFacts.LocalTime_eq. unfold JsDate.Day.
    change JsDate.msPerDay with 86400000.
    apply Day_between. lia. }
  set (j := JsDate.Day (JsDate.LocalTime tza now') - m) in *.
  assert (HD : JsDate.Day (JsDate.LocalTime tza now') = m + j) by (subst j; lia).
  assert (Hback : daysBack (JsDate.getDay tza now') = j).
  { unfold JsDate.getDay, JsDate.WeekDay. rewrite HD.
    apply daysBack_of_offset; assumption. }
  rewrite Hback, HD in H2. clearbody j.
  rewrite JsDateFacts.LocalTime_eq in H2. rewrite JsDateFacts.msPerDay_eq in H2.
  replace (m + j - j) with m in H2 by lia. lia.
Qed.

(** X6. [getWeekBounds] gives the same window at every instant of a week:
    a clock reading between the start of the window of [now] and seven days
    later has the bounds of [now], both strings. *)
Theorem weekBounds_constant_over_week tza now now' :
  weekStartOf tza now <= now' < weekStartOf tza now + 7 * JsDate.msPerDay ->
  weekBoundsAt tza now' = weekBoundsAt tza now.
Proof.
  intros H. pose proof (weekStartOf_same_week tza now now' H) as Hs.
  unfold weekBoundsAt, weekEndOf. rewrite Hs. reflexivity.
Qed.

Lemma weekBounds_constant_over_week_witness :
  weekStartOf 0 wednesdayNoon <= sundayNoon < weekStartOf 0 wednesdayNoon + 7 * JsDate.msPerDay
  /\ weekBoundsAt 0 sundayNoon = weekBoundsAt 0 wednesdayNoon.
Proof.
  assert (H : weekStartOf 0 wednesdayNoon <= sundayNoon
              < weekStartOf 0 wednesdayNoon + 7 * JsDate.msPerDay)
    by (vm_compute; split; [discriminate | reflexivity]).
  split; [exact H|].
  exact (weekBounds_constant_over_week 0 wednesdayNoon sundayNoon H).
Defined.

Lemma toISOString_not_empty t : String.eqb (JsDate.toISOString t) "" = false.
Proof.
  apply String.eqb_neq. intros H.
  apply (f_equal String.length) in H. unfold JsDate.toISOString in H.
  rewrite JsDateFacts.length_append in H.
  rewrite (JsDateFacts.length_append "-") in H. cbn [String.length] in H. lia.
Qed.

(** X7. The grid shows the week the pipeline filtered for: given the
    [startDate] that [getData] returns with the events of a week, and a
    [Date] constructor that reads that ISO string back, [getWeekStart] is the
    start of the window of [getWeekBounds], whatever the current time. *)
Theorem grid_week_is_pipeline_week tza DateParse evs now today :
  DateParse (JsDate.toISOString (weekStartOf tza now)) = Some (weekStartOf tza now) ->
  getWeekStart tza DateParse today (Some (startDate (weekData tza DateParse evs now)))
  = Some (weekStartOf tza now).
Proof.
  intros Hp. unfold getWeekStart, weekData, weekBoundsAt. cbn [startDate timeMin].
  cbn [truthy valueOf]. rewrite toISOString_not_empty. cbn [negb]. rewrite Hp.
  rewrite GridFacts.getWeekStart_valid.
  rewrite (WeekBoundsFacts.weekStartOf_monday tza now). f_equal.
  unfold daysBack. cbn. lia.
Qed.

Lemma grid_week_is_pipeline_week_witness :
  IsoDate.parse utcPlusOne (JsDate.toISOString (weekStartOf utcPlusOne wednesdayNoon))
  = Some (weekStartOf utcPlusOne wednesdayNoon)
  /\ getWeekStart utcPlusOne (IsoDate.parse utcPlusOne) sundayNoon
       (Some (startDate (weekData utcPlusOne (IsoDate.parse utcPlusOne) [] wednesdayNoon)))
     = Some (weekStartOf utcPlusOne wednesdayNoon).
Proof.
  assert (H : IsoDate.parse utcPlusOne
                (JsDate.toISOString (weekStartOf utcPlusOne wednesdayNoon))
              = Some (weekStartOf utcPlusOne wednesdayNoon))
    by (vm_compute; reflexivity).
  split; [exact H|].
  exact (grid_week_is_pipeline_week utcPlusOne (IsoDate.parse utcPlusOne) []
           wednesdayNoon sundayNoon H).
Defined.

(* ================================================================== *)
(** * Dates of the feed                                                 *)
(* ================================================================== *)

(** Take a string of known length apart into its characters. *)
Ltac explode s :=
  match goal with
  | H : String.length s = O |- _ => destruct s; [clear H | discriminate H]
  | H : String.length s = S _ |- _ =>
      let c := fresh "c" in
      let s' := fresh "s" in
      destruct s as [|c s']; [discriminate H|];
      cbn [String.length] in H; apply eq_add_S in H; explode s'
  end.

Lemma substring_0_0 s : String.substring 0 0 s = "".
Proof. destruct s; reflexivity. Qed.

Lemma len_not_8 s : (8 < String.length s)%nat -> (JsString.len s =? 8) = false.
Proof. intros H. apply Z.eqb_neq. unfold JsString.len. lia. Qed.

(** X8. A date-time value of the feed, after its parameters: the year,
    month, day, hour, minute and second are taken from fixed positions, the
    character between date and time is not looked at, and whatever follows
    the seconds, the UTC designator [Z] included, is dropped: a UTC time and
    a local time of the same digits give the same string. *)
Theorem parseICalDate_date_time v y mo d t h mi s z :
  JsString.stripToColon v = y ++ mo ++ d ++ t ++ h ++ mi ++ s ++ z ->
  String.length y = 4%nat -> String.length mo = 2%nat -> String.length d = 2%nat ->
  String.length t = 1%nat ->
  String.length h = 2%nat -> String.length mi = 2%nat -> String.length s = 2%nat ->
  parseICalDate v = y ++ "-" ++ mo ++ "-" ++ d ++ "T" ++ h ++ ":" ++ mi ++ ":" ++ s.
Proof.
  intros Hv Hy Hmo Hd Ht Hh Hmi Hs. unfold parseICalDate. cbv zeta. rewrite Hv.
  rewrite len_not_8 by (rewrite !JsDateFacts.length_append; lia).
  explode y. explode mo. explode d. explode t. explode h. explode mi. explode s.
  unfold JsString.substring. cbn [String.substring append Nat.sub].
  rewrite !substring_0_0. reflexivity.
Qed.

Lemma parseICalDate_date_time_witness :
  JsString.stripToColon "TZID=Europe/Berlin:20240103T090000Z"
  = "2024" ++ "01" ++ "03" ++ "T" ++ "09" ++ "00" ++ "00" ++ "Z"
  /\ parseICalDate "TZID=Europe/Berlin:20240103T090000Z" = "2024-01-03T09:00:00"
  /\ parseICalDate "20240103T090000" = "2024-01-03T09:00:00".
Proof.
  split; [reflexivity|]. split.
  - exact (parseICalDate_date_time "TZID=Europe/Berlin:20240103T090000Z"
             "2024" "01" "03" "T" "09" "00" "00" "Z"
             eq_refl eq_refl eq_refl eq_refl eq_refl eq_refl eq_refl eq_refl).
  - exact (parseICalDate_date_time "20240103T090000"
             "2024" "01" "03" "T" "09" "00" "00" ""
             eq_refl eq_refl eq_refl eq_refl eq_refl eq_refl eq_refl eq_refl).
Defined.

Lemma ofYMD_midnight tza y m d :
  JsDate.TimeWithinDay (JsDate.LocalTime tza (JsDate.ofYMD tza y m d)) = 0.
Proof.
  unfold JsDate.ofYMD, JsDate.UTC, JsDate.LocalTime, JsDate.MakeDate, JsDate.TimeWithinDay.
  match goal with
  | |- (?a * JsDate.msPerDay + 0 - tza + tza) mod _ = 0 =>
      replace (a * JsDate.msPerDay + 0 - tza + tza) with (a * JsDate.msPerDay) by lia
  end.
  apply Z.mod_mul. rewrite JsDateFacts.msPerDay_eq. lia.
Qed.

(** X9. A date of the feed, [YYYYMMDD] after its parameters, reaches the
    grid as [YYYY-MM-DD], which the grid reads as local midnight of that day
    without consulting the [Date] parser: an all-day event of the feed is
    placed by its local calendar date in every time zone. *)
Theorem ical_date_is_local_midnight tza DateParse v y mo d :
  JsString.stripToColon v = y ++ mo ++ d ->
  String.length y = 4%nat -> String.length mo = 2%nat -> String.length d = 2%nat ->
  JsString.allDigits y = true -> JsString.allDigits mo = true ->
  JsString.allDigits d = true ->
  parseICalDate v = y ++ "-" ++ mo ++ "-" ++ d
  /\ parseEventDate tza DateParse (parseICalDate v)
     = Some (JsDate.ofYMD tza (JsString.digitsValue 0 y)
                          (JsString.digitsValue 0 mo - 1) (JsString.digitsValue 0 d))
  /\ forall t, parseEventDate tza DateParse (parseICalDate v) = Some t ->
               JsDate.TimeWithinDay (JsDate.LocalTime tza t) = 0.
Proof.
  intros Hv Hy Hmo Hd Dy Dmo Dd.
  assert (Hf : parseICalDate v = y ++ "-" ++ mo ++ "-" ++ d).
  { unfold parseICalDate. cbv zeta. rewrite Hv.
    replace (JsString.len (y ++ mo ++ d) =? 8) with true
      by (symmetry; apply Z.eqb_eq; unfold JsString.len;
          rewrite !JsDateFacts.length_append; lia).
    explode y. explode mo. explode d. reflexivity. }
  assert (Hp : parseEventDate tza DateParse (parseICalDate v)
               = Some (JsDate.ofYMD tza (JsString.digitsValue 0 y)
                         (JsString.digitsValue 0 mo - 1) (JsString.digitsValue 0 d))).
  { rewrite Hf. unfold parseEventDate.
    explode y. explode mo. explode d.
    unfold matchesDateOnly, JsString.len, JsString.substring, JsString.allDigits in *.
    cbn [String.length append String.substring list_ascii_of_string Nat.sub] in *.
    rewrite Dy, Dmo, Dd. reflexivity. }
  split; [exact Hf|]. split; [exact Hp|].
  intros t Ht. rewrite Hp in Ht. injection Ht as <-. apply ofYMD_midnight.
Qed.

Lemma ical_date_is_local_midnight_witness :
  JsString.stripToColon "VALUE=DATE:20240101" = "2024" ++ "01" ++ "01"
  /\ parseICalDate "VALUE=DATE:20240101" = "2024-01-01"
  /\ parseEventDate (- 5 * 3600000) (fun _ => None) (parseICalDate "VALUE=DATE:20240101")
     = Some (1704067200000 + 5 * 3600000).
Proof.
  split; [reflexivity|].
  pose proof (ical_date_is_local_midnight (- 5 * 3600000) (fun _ => None)
                "VALUE=DATE:20240101" "2024" "01" "01"
                eq_refl eq_refl eq_refl eq_refl eq_refl eq_refl eq_refl) as H.
  split; [exact (proj1 H)|].
  exact (proj1 (proj2 H)
         <: parseEventDate (- 5 * 3600000) (fun _ => None)
              (parseICalDate "VALUE=DATE:20240101")
            = Some (1704067200000 + 5 * 3600000)).
Defined.

(* ------------------------------------------------------------------ *)
(** ** Blocks and events                                                *)
(* ------------------------------------------------------------------ *)

Lemma splitFrom_no_separator sep cur s :
  JsString.includes sep s = false ->
  JsString.splitFrom sep 0 cur s = [JsString.rev_append cur s].
Proof.
  revert cur. induction s as [|c s IH]; intros cur H.
  - reflexivity.
  - cbn [JsString.includes] in H. apply orb_false_iff in H. destruct H as [H1 H2].
    cbn [JsString.splitFrom]. rewrite H1. rewrite (IH (String c cur) H2). reflexivity.
Qed.

Lemma parseBlocksFrom_length i blocks :
  (List.length (parseBlocksFrom i blocks) <= List.length blocks)%nat.
Proof.
  revert i. induction blocks as [|b blocks IH]; intros i; [apply Nat.le_refl|].
  cbn [parseBlocksFrom]. specialize (IH (S i)).
  destruct (parseBlock i b); cbn [List.length]; lia.
Qed.

(** X10. The parser gives at most one event for each [BEGIN:VEVENT] of
    the document, and none for a document in which [BEGIN:VEVENT] does not
    occur: such a document is a single block, the one before the first
    event, which the loop skips. *)
Theorem parseICal_at_most_one_per_block doc :
  (List.length (parseICal doc) <= List.length (eventBlocks doc) - 1)%nat
  /\ (JsString.includes "BEGIN:VEVENT" doc = false ->
      eventBlocks doc = [doc] /\ parseICal doc = []).
Proof.
  split.
  - unfold parseICal. pose proof (parseBlocksFrom_length 1 (tl (eventBlocks doc))) as H.
    destruct (eventBlocks doc); cbn [tl List.length] in *; lia.
  - intros H.
    assert (Hb : eventBlocks doc = [doc])
      by (unfold eventBlocks, JsString.split; rewrite splitFrom_no_separator by exact H;
          reflexivity).
    split; [exact Hb|]. unfold parseICal. rewrite Hb. reflexivity.
Qed.

Lemma parseICal_at_most_one_per_block_witness :
  JsString.includes "BEGIN:VEVENT" emptyFeed = false
  /\ eventBlocks emptyFeed = [emptyFeed]
  /\ parseICal emptyFeed = []
  /\ (List.length (parseICal sampleFeed) <= List.length (eventBlocks sampleFeed) - 1)%nat.
Proof.
  assert (H : JsString.includes "BEGIN:VEVENT" emptyFeed = false)
    by (vm_compute; reflexivity).
  split; [exact H|].
  split; [exact (proj1 (proj2 (parseICal_at_most_one_per_block emptyFeed) H))|].
  split; [exact (proj2 (proj2 (parseICal_at_most_one_per_block emptyFeed) H))|].
  exact (proj1 (parseICal_at_most_one_per_block sampleFeed)).
Defined.

(* ------------------------------------------------------------------ *)
(** ** The week filter                                                  *)
(* ------------------------------------------------------------------ *)

Lemma filterToWeek_In DateParse bounds evs e :
  In e (filterToWeek DateParse bounds evs)
  <-> In e evs
      /\ exists weekStart weekEnd t,
           DateParse (timeMin bounds) = Some weekStart
           /\ DateParse (timeMax bounds) = Some weekEnd
           /\ DateParse (start e) = Some t
           /\ weekStart <= t <= weekEnd.
Proof.
  unfold filterToWeek. rewrite filter_In.
  unfold inWeek, JsNum.leb, JsNum.geb.
  destruct (DateParse (timeMin bounds)) as [ws|];
    destruct (DateParse (timeMax bounds)) as [we|];
    destruct (DateParse (start e)) as [t|];
    (split; [intros [Hi Hk] | intros (Hi & ws' & we' & t' & H1 & H2 & H3 & H4)]);
    try discriminate; try (cbn in Hk; discriminate);
    try (rewrite andb_false_r in Hk; discriminate).
  - apply andb_true_iff in Hk. destruct Hk as [Ha Hb]. apply Z.leb_le in Ha, Hb.
    split; [exact Hi|]. exists ws, we, t. auto.
  - injection H1 as <-. injection H2 as <-. injection H3 as <-.
    split; [exact Hi|]. apply andb_true_iff. split; apply Z.leb_le; lia.
Qed.

(** X11. What the week filter keeps: exactly the events of the list whose
    start is a valid date between the two bounds, both bounds being valid
    dates themselves; an event whose start does not parse is dropped, and
    with a bound that does not parse nothing is kept. *)
Theorem filterToWeek_keeps DateParse bounds evs e :
  In e (filterToWeek DateParse bounds evs)
  <-> In e evs
      /\ exists weekStart weekEnd t,
           DateParse (timeMin bounds) = Some weekStart
           /\ DateParse (timeMax bounds) = Some weekEnd
           /\ DateParse (start e) = Some t
           /\ weekStart <= t <= weekEnd.
Proof. exact (filterToWeek_In DateParse bounds evs e). Qed.

(* ================================================================== *)
(** * What the pipeline does to the world                               *)
(* ================================================================== *)






(* ================================================================== *)
(** * Requests and the cache over a call of [getData]                   *)
(* ================================================================== *)

Section Requests.
Variable tza : Z.
Variable DateParse : string -> option Z.
Variable clock : nat -> Z.
Variable net : list Request -> Request -> FetchOutcome.
Variable ICAL_URL : option string.
Variable API_KEY : option string.

(** The cache wrapper either answers from the cache, after its clock
    read and nothing else, or runs the function. *)
Lemma getCachedCalendarData_cases params w :
  (exists v,
      getCachedCalendarData tza DateParse clock net ICAL_URL API_KEY params w
      = (Return v, ticked w))
  \/ getCachedCalendarData tza DateParse clock net ICAL_URL API_KEY params w
     = match computeCalendarData tza DateParse clock net ICAL_URL API_KEY params (ticked w) with
       | (Return v, w') => (Return v, stored params (clock (ticks w)) v w')
       | (Throw error, w') => (Throw error, w')
       end.
Proof.
  unfold getCachedCalendarData, unstable_cache. run_js. fold (ticked w).
  destruct (cacheLookup params (cache w)) as [entry|].
  - destruct (clock (ticks w) - storedAt entry <? revalidateMs).
    + left. eexists. reflexivity.
    + right.
      destruct (computeCalendarData tza DateParse clock net ICAL_URL API_KEY params (ticked w))
        as [[v | error] w']; reflexivity.
  - right.
    destruct (computeCalendarData tza DateParse clock net ICAL_URL API_KEY params (ticked w))
      as [[v | error] w']; reflexivity.
Qed.

Lemma fetchCalendarDataNoCache_adds params w :
  exists added,
    addsRequests ICAL_URL API_KEY w
      (snd (fetchCalendarDataNoCache tza DateParse clock net ICAL_URL API_KEY params w))
      added params.
Proof.
  unfold addsRequests.
  destruct (truthy (resolvedIcalUrl ICAL_URL params)) eqn:Ht.
  - destruct (fetchICalEvents_returns net (valueOf (resolvedIcalUrl ICAL_URL params)) w)
      as (r & w1 & Hr & _ & Hq & _).
    rewrite (fetchCalendarDataNoCache_feed tza DateParse clock net ICAL_URL API_KEY
               params w r w1 Ht Hr).
    eexists. split; [exact Hq|]. split; [cbn; lia|]. split; [reflexivity | discriminate].
  - destruct (isNonEmpty (resolvedApiKey API_KEY params)) eqn:Hk.
    + destruct (fetchCalendarEvents_returns tza clock net (resolvedCalendarId params)
                  (resolvedApiKey API_KEY params) (resolvedMaxResults params) w)
        as (r & w1 & Hr & _ & Hq & _).
      rewrite (fetchCalendarDataNoCache_api tza DateParse clock net ICAL_URL API_KEY
                 params w r w1 Ht Hk Hr).
      eexists. split; [exact Hq|]. split; [cbn; lia|]. split; discriminate.
    + rewrite (fetchCalendarDataNoCache_unconfigured tza DateParse clock net ICAL_URL
                 API_KEY params w Ht Hk).
      exists []. split; [cbn; rewrite app_nil_r; reflexivity|].
      split; [cbn; lia|]. split; [discriminate | reflexivity].
Qed.

Lemma computeCalendarData_adds params w :
  exists added,
    addsRequests ICAL_URL API_KEY w
      (snd (computeCalendarData tza DateParse clock net ICAL_URL API_KEY params w))
      added params.
Proof.
  unfold addsRequests.
  destruct (truthy (resolvedIcalUrl ICAL_URL params)) eqn:Ht.
  - destruct (fetchICalEvents_returns net (valueOf (resolvedIcalUrl ICAL_URL params)) w)
      as (r & w1 & Hr & _ & Hq & _).
    rewrite (computeCalendarData_feed tza DateParse clock net ICAL_URL API_KEY
               params w r w1 Ht Hr).
    eexists. split; [destruct r; exact Hq|]. split; [cbn; lia|].
    split; [reflexivity | discriminate].
  - destruct (isNonEmpty (resolvedApiKey API_KEY params)) eqn:Hk.
    + destruct (fetchCalendarEvents_returns tza clock net (resolvedCalendarId params)
                  (resolvedApiKey API_KEY params) (resolvedMaxResults params) w)
        as (r & w1 & Hr & _ & Hq & _).
      rewrite (computeCalendarData_api tza DateParse clock net ICAL_URL API_KEY
                 params w r w1 Ht Hk Hr).
      eexists. split; [destruct r; exact Hq|]. split; [cbn; lia|]. split; discriminate.
    + rewrite (computeCalendarData_unconfigured tza DateParse clock net ICAL_URL
                 API_KEY params w Ht Hk).
      exists []. split; [cbn; rewrite app_nil_r; reflexivity|].
      split; [cbn; lia|]. split; [discriminate | reflexivity].
Qed.

End Requests.

(** X13. One call of [getData] makes at most two requests, one by the
    cacheable path and one more by the uncached path when the first
    declines.  With a feed URL every request it makes is the feed request
    (the API key is not sent, even when the feed fails); without a source it
    makes none. *)
Theorem getData_requests tza DateParse clock net ICAL_URL API_KEY params w :
  let w' := snd (getData tza DateParse clock net ICAL_URL API_KEY params w) in
  let icalUrl := resolvedIcalUrl ICAL_URL params in
  (exists added, requests w' = (requests w ++ added)%list /\ (List.length added <= 2)%nat)
  /\ (truthy icalUrl = true ->
      exists n, (n <= 2)%nat
                /\ requests w' = (requests w ++ repeat (GetICal (valueOf icalUrl)) n)%list)
  /\ (truthy icalUrl = false -> isNonEmpty (resolvedApiKey API_KEY params) = false ->
      requests w' = requests w).
Proof.
  cbv zeta.
  assert (Hmain :
    exists a1 a2,
      requests (snd (getData tza DateParse clock net ICAL_URL API_KEY params w))
      = (requests w ++ a1 ++ a2)%list
      /\ (List.length a1 <= 1)%nat /\ (List.length a2 <= 1)%nat
      /\ (truthy (resolvedIcalUrl ICAL_URL params) = true ->
          (a1 = [] \/ a1 = [GetICal (valueOf (resolvedIcalUrl ICAL_URL params))])
          /\ (a2 = [] \/ a2 = [GetICal (valueOf (resolvedIcalUrl ICAL_URL params))]))
      /\ (truthy (resolvedIcalUrl ICAL_URL params) = false ->
          isNonEmpty (resolvedApiKey API_KEY params) = false -> a1 = [] /\ a2 = [])).
  { unfold getData, tryCatch.
    destruct (getCachedCalendarData_cases tza DateParse clock net ICAL_URL API_KEY params w)
      as [[v Hhit] | Hrun].
    - rewrite Hhit. exists [], []. cbn. rewrite app_nil_r.
      split; [reflexivity|]. split; [lia|]. split; [lia|]. split; auto.
    - rewrite Hrun.
      destruct (computeCalendarData_adds tza DateParse clock net ICAL_URL API_KEY
                  params (ticked w)) as (a1 & Hq1 & Hl1 & Hf1 & Hu1).
      destruct (computeCalendarData tza DateParse clock net ICAL_URL API_KEY params (ticked w))
        as [[v | error] w1]; cbn [snd] in Hq1.
      + exists a1, []. cbn [snd stored requests]. rewrite app_nil_r.
        split; [exact Hq1|]. split; [exact Hl1|]. split; [cbn; lia|].
        split.
        * intros Ht. split; [right; exact (Hf1 Ht) | left; reflexivity].
        * intros Ht Hk. split; [exact (Hu1 Ht Hk) | reflexivity].
      + run_js.
        match goal with
        | |- context [fetchCalendarDataNoCache _ _ _ _ _ _ _ ?w0] =>
            destruct (fetchCalendarDataNoCache_adds tza DateParse clock net ICAL_URL
                        API_KEY params w0) as (a2 & Hq2 & Hl2 & Hf2 & Hu2)
        end.
        exists a1, a2. rewrite Hq2. cbn [requests]. rewrite Hq1. cbn [ticked requests].
        split; [rewrite app_assoc; reflexivity|]. split; [exact Hl1|].
        split; [exact Hl2|]. split.
        * intros Ht. split; right; [exact (Hf1 Ht) | exact (Hf2 Ht)].
        * intros Ht Hk. split; [exact (Hu1 Ht Hk) | exact (Hu2 Ht Hk)]. }
  destruct Hmain as (a1 & a2 & Hq & Hl1 & Hl2 & Hf & Hu).
  repeat apply conj.
  - exists (a1 ++ a2)%list. split; [exact Hq|]. rewrite length_app. lia.
  - intros Ht. destruct (Hf Ht) as [[-> | ->] [-> | ->]].
    + exists 0%nat. split; [lia | exact Hq].
    + exists 1%nat. split; [lia | exact Hq].
    + exists 1%nat. split; [lia | exact Hq].
    + exists 2%nat. split; [lia | exact Hq].
  - intros Ht Hk. destruct (Hu Ht Hk) as [-> ->]. rewrite Hq. cbn.
    rewrite app_nil_r. reflexivity.
Qed.

Lemma getData_requests_witness :
  truthy (resolvedIcalUrl None feedParams) = true
  /\ exists n, (n <= 2)%nat
               /\ requests (snd (getData 0 (IsoDate.parse 0) stoppedClock netDown
                                   None (Some "key-123") feedParams emptyWorld))
                  = (requests emptyWorld
                     ++ repeat (GetICal (valueOf (resolvedIcalUrl None feedParams))) n)%list.
Proof.
  split; [reflexivity|].
  exact (proj1 (proj2 (getData_requests 0 (IsoDate.parse 0) stoppedClock netDown
                         None (Some "key-123") feedParams emptyWorld)) eq_refl).
Defined.

(* ------------------------------------------------------------------ *)
(** ** A second call within five minutes                                *)
(* ------------------------------------------------------------------ *)

Lemma cacheLookup_stored params now v w :
  cacheLookup params (cache (stored params now v w)) = Some (mkCacheEntry now v).
Proof.
  cbn [stored cache cacheLookup]. destruct (params_eq_dec params params) as [_ | Hne];
    [reflexivity | exfalso; apply Hne; reflexivity].
Qed.

(** X14. With the cache wrapper as modelled: when a call of [getData]
    with nothing cached computes a value on the cacheable path, that call
    returns it and stores it, and a second call with the same parameters
    whose clock read is less than 300 seconds after the first one returns the
    same value without a request and without a console line. *)
Theorem getData_second_call_from_cache tza DateParse clock net ICAL_URL API_KEY params w v w1 :
  cacheLookup params (cache w) = None ->
  computeCalendarData tza DateParse clock net ICAL_URL API_KEY params (ticked w)
  = (Return v, w1) ->
  clock (ticks w1) - clock (ticks w) < 300 * 1000 ->
  let w2 := stored params (clock (ticks w)) v w1 in
  getData tza DateParse clock net ICAL_URL API_KEY params w = (Return v, w2)
  /\ getData tza DateParse clock net ICAL_URL API_KEY params w2 = (Return v, ticked w2).
Proof.
  intros Hm Hc Hage w2. split.
  - unfold getData, tryCatch.
    rewrite (getCachedCalendarData_miss tza DateParse clock net ICAL_URL API_KEY params w Hm).
    rewrite Hc. reflexivity.
  - unfold getData, tryCatch, getCachedCalendarData, unstable_cache. run_js.
    subst w2. rewrite cacheLookup_stored. cbn [storedAt cached stored ticks].
    unfold revalidateMs. apply Z.ltb_lt in Hage. rewrite Hage. reflexivity.
Qed.

Lemma getData_second_call_from_cache_witness :
  let w1 := mkWorld 2 [GetICal "https://calendar.example/feed.ics"] [] [] in
  let v := mkCalendarData
             [mkCalendarEvent "a1" "New Year" "2024-01-01" "2024-01-02" true;
              mkCalendarEvent "event-3" "Stand-up" "2024-01-03T09:00:00"
                              "2024-01-03T10:00:00" false]
             "2024-01-01T00:00:00.000Z" in
  cacheLookup feedParams (cache emptyWorld) = None
  /\ computeCalendarData 0 (IsoDate.parse 0) stoppedClock (netFeed sampleFeed) None None
       feedParams (ticked emptyWorld) = (Return v, w1)
  /\ stoppedClock (ticks w1) - stoppedClock (ticks emptyWorld) < 300 * 1000
  /\ getData 0 (IsoDate.parse 0) stoppedClock (netFeed sampleFeed) None None feedParams
       (stored feedParams (stoppedClock 0%nat) v w1)
     = (Return v, ticked (stored feedParams (stoppedClock 0%nat) v w1)).
Proof.
  intros w1 v.
  assert (H1 : cacheLookup feedParams (cache emptyWorld) = None) by reflexivity.
  assert (H2 : computeCalendarData 0 (IsoDate.parse 0) stoppedClock (netFeed sampleFeed)
                 None None feedParams (ticked emptyWorld) = (Return v, w1))
    by (vm_compute; reflexivity).
  assert (H3 : stoppedClock (ticks w1) - stoppedClock (ticks emptyWorld) < 300 * 1000)
    by (vm_compute; reflexivity).
  split; [exact H1|]. split; [exact H2|]. split; [exact H3|].
  exact (proj2 (getData_second_call_from_cache 0 (IsoDate.parse 0) stoppedClock
                  (netFeed sampleFeed) None None feedParams emptyWorld v w1 H1 H2 H3)).
Defined.

(* ------------------------------------------------------------------ *)
(** ** The two revisions of [getData.ts]                                *)
(* ------------------------------------------------------------------ *)

(** X15. Without a feed URL, the uncached path of the revision with the
    feed does what the revision without it does, requests, clock reads and
    cache alike, except that it keeps only the events of the week: the
    [startDate] is the same and the events are those of the older revision
    filtered to the week window. *)
Theorem revisions_differ_by_week_filter tza DateParse clock net ICAL_URL API_KEY params w :
  truthy (resolvedIcalUrl ICAL_URL params) = false ->
  exists r_old w_old r_new w_new,
    ApiOnly.fetchCalendarDataNoCache tza clock net API_KEY params w = (Return r_old, w_old)
    /\ fetchCalendarDataNoCache tza DateParse clock net ICAL_URL API_KEY params w
       = (Return r_new, w_new)
    /\ startDate r_new = startDate r_old
    /\ events r_new
       = filterToWeek DateParse (weekBoundsAt tza (clock (S (ticks w)))) (events r_old)
    /\ requests w_new = requests w_old
    /\ ticks w_new = ticks w_old
    /\ cache w_new = cache w_old.
Proof.
  intros Ht.
  destruct (isNonEmpty (resolvedApiKey API_KEY params)) eqn:Hk.
  - destruct (fetchCalendarEvents_returns tza clock net (resolvedCalendarId params)
                (resolvedApiKey API_KEY params) (resolvedMaxResults params) w)
      as (r & w1 & Hr & Ht1 & _ & _).
    rewrite (fetchCalendarDataNoCache_api tza DateParse clock net ICAL_URL API_KEY
               params w r w1 Ht Hk Hr).
    unfold ApiOnly.fetchCalendarDataNoCache. cbv zeta. rewrite Hk. cbn [negb].
    run_js. rewrite Hr.
    destruct r as [evs|]; eexists _, _, _, _; (split; [reflexivity|]);
      (split; [reflexivity|]); cbn [uncachedResult weekData emptyData startDate events];
      rewrite ?Ht1; repeat split;
      try (cbn [ticked ticks]; rewrite Ht1; reflexivity).
  - rewrite (fetchCalendarDataNoCache_unconfigured tza DateParse clock net ICAL_URL
               API_KEY params w Ht Hk).
    unfold ApiOnly.fetchCalendarDataNoCache. cbv zeta. rewrite Hk. cbn [negb].
    run_js. eexists _, _, _, _. split; [reflexivity|]. split; [reflexivity|].
    repeat split.
Qed.

Lemma revisions_differ_by_week_filter_witness :
  truthy (resolvedIcalUrl None None) = false
  /\ exists r_old w_old r_new w_new,
       ApiOnly.fetchCalendarDataNoCache 0 stoppedClock netDown (Some "key-123") None
         emptyWorld = (Return r_old, w_old)
       /\ fetchCalendarDataNoCache 0 (IsoDate.parse 0) stoppedClock netDown None
            (Some "key-123") None emptyWorld = (Return r_new, w_new)
       /\ startDate r_new = startDate r_old
       /\ events r_new
          = filterToWeek (IsoDate.parse 0) (weekBoundsAt 0 (stoppedClock 1%nat))
                         (events r_old)
       /\ requests w_new = requests w_old
       /\ ticks w_new = ticks w_old
       /\ cache w_new = cache w_old.
Proof.
  split; [reflexivity|].
  exact (revisions_differ_by_week_filter 0 (IsoDate.parse 0) stoppedClock netDown
           None (Some "key-123") None emptyWorld eq_refl).
Defined.

(* ================================================================== *)
(** * The image route                                                   *)
(* ================================================================== *)

Module RouteFacts.
Import Route.

Ltac run_route :=
  cbv beta iota zeta delta
    [tryCatch bind ret throw await consoleWrite];
  cbn [ticks requests console cache].

Section Handler.
Variable DEFAULT_IMAGE_WIDTH : Z.
Variable DEFAULT_IMAGE_HEIGHT : Z.
Variable screens : string -> bool.
Variable Built : Type.
Variable buildRecipeElement : string -> Exn + Built.
Variable renderRecipeOutputs : RenderCall Built -> Exn + Renders.

(** The fallback always answers: with the image of the not-found screen
    under the content type it was given, or with the error response. *)
Lemma renderFallbackImage_returns format contentType slug w :
  exists r w',
    renderFallbackImage DEFAULT_IMAGE_WIDTH DEFAULT_IMAGE_HEIGHT Built renderRecipeOutputs
      format contentType slug w = (Return r, w')
    /\ (isImageResponse contentType r \/ r = errorResponse).
Proof.
  unfold renderFallbackImage. run_route.
  destruct (renderRecipeOutputs _) as [error | renders]; run_route.
  - eexists _, _. split; [reflexivity|]. right. reflexivity.
  - destruct (bufferOf format renders) as [buffer|]; run_route.
    + eexists _, _. split; [reflexivity|]. left. exists buffer. reflexivity.
    + eexists _, _. split; [reflexivity|]. right. reflexivity.
Qed.

(** [GET] case by case: what the two imported functions give decides the
    response. *)
Lemma GET_cases req w :
  let s := settingsOf DEFAULT_IMAGE_WIDTH DEFAULT_IMAGE_HEIGHT screens req in
  exists r w',
    GET DEFAULT_IMAGE_WIDTH DEFAULT_IMAGE_HEIGHT screens Built buildRecipeElement
        renderRecipeOutputs req w = (Return r, w')
    /\ match buildRecipeElement (recipeId s) with
       | inl _ => isImageResponse "image/bmp" r \/ r = errorResponse
       | inr built =>
           match renderRecipeOutputs
                   (mkRenderCall Built (recipeId s)
                      (RecipeScreen Built built (validWidth s) (validHeight s))
                      (validWidth s) (validHeight s) [format s] (grayscaleLevels s)
                      (Some (rotateAngle s))) with
           | inl _ => isImageResponse "image/bmp" r \/ r = errorResponse
           | inr renders =>
               match bufferOf (format s) renders with
               | Some (b :: bs) => r = imageResponse (imageContentType s) (b :: bs)
               | _ => isImageResponse (imageContentType s) r \/ r = errorResponse
               end
           end
       end.
Proof.
  cbv zeta. unfold GET, renderRecipeImage.
  set (s := settingsOf DEFAULT_IMAGE_WIDTH DEFAULT_IMAGE_HEIGHT screens req).
  run_route.
  destruct (buildRecipeElement (recipeId s)) as [error | built]; run_route.
  - match goal with
    | |- context [renderFallbackImage _ _ _ _ ?f ?c ?g ?w0] =>
        destruct (renderFallbackImage_returns f c g w0) as (r & w' & -> & Hr)
    end.
    exists r, w'. split; [reflexivity | exact Hr].
  - destruct (renderRecipeOutputs _) as [error | renders]; run_route.
    + match goal with
      | |- context [renderFallbackImage _ _ _ _ ?f ?c ?g ?w0] =>
          destruct (renderFallbackImage_returns f c g w0) as (r & w' & -> & Hr)
      end.
      exists r, w'. split; [reflexivity | exact Hr].
    + destruct (bufferOf (format s) renders) as [[|b bs]|]; run_route.
      * match goal with
        | |- context [renderFallbackImage _ _ _ _ ?f ?c ?g ?w0] =>
            destruct (renderFallbackImage_returns f c g w0) as (r & w' & -> & Hr)
        end.
        exists r, w'. split; [reflexivity | exact Hr].
      * eexists _, _. split; reflexivity.
      * match goal with
        | |- context [renderFallbackImage _ _ _ _ ?f ?c ?g ?w0] =>
            destruct (renderFallbackImage_returns f c g w0) as (r & w' & -> & Hr)
        end.
        exists r, w'. split; [reflexivity | exact Hr].
Qed.

Lemma imageContentType_cases req :
  let s := settingsOf DEFAULT_IMAGE_WIDTH DEFAULT_IMAGE_HEIGHT screens req in
  (format s = Png /\ imageContentType s = "image/png")
  \/ (format s = Bitmap /\ imageContentType s = "image/bmp").
Proof.
  cbv zeta. unfold settingsOf. cbn [format imageContentType].
  destruct (endsWith ".png" _); [left | right]; split; reflexivity.
Qed.

End Handler.
End RouteFacts.


(** X16. [GET] never throws: for every request and whatever the imported
    functions do, it answers with an image response (status 200, content type
    [image/png] or [image/bmp], and a [Content-Length] that is the number of
    bytes of the body) or with the one error response (status 500,
    [text/plain], "Error generating image"). *)
Theorem GET_always_responds DEFAULT_IMAGE_WIDTH DEFAULT_IMAGE_HEIGHT screens Built
  buildRecipeElement renderRecipeOutputs req w :
  exists r w',
    Route.GET DEFAULT_IMAGE_WIDTH DEFAULT_IMAGE_HEIGHT screens Built buildRecipeElement
      renderRecipeOutputs req w = (Return r, w')
    /\ ((exists buffer,
            Route.status r = 200
            /\ Route.body r = Route.Bytes buffer
            /\ Route.contentLength r = Some (JsString.ofZ (Z.of_nat (List.length buffer)))
            /\ (Route.contentType r = "image/png" \/ Route.contentType r = "image/bmp"))
        \/ r = errorResponse).
Proof.
  destruct (RouteFacts.GET_cases DEFAULT_IMAGE_WIDTH DEFAULT_IMAGE_HEIGHT screens Built
              buildRecipeElement renderRecipeOutputs req w) as (r & w' & Hg & Hc).
  exists r, w'. split; [exact Hg|].
  assert (Himg : forall ct, (ct = "image/png" \/ ct = "image/bmp") ->
                            isImageResponse ct r \/ r = errorResponse ->
                            (exists buffer,
                                Route.status r = 200
                                /\ Route.body r = Route.Bytes buffer
                                /\ Route.contentLength r
                                   = Some (JsString.ofZ (Z.of_nat (List.length buffer)))
                                /\ (Route.contentType r = "image/png"
                                    \/ Route.contentType r = "image/bmp"))
                            \/ r = errorResponse).
  { intros ct Hct [[buffer ->] | ->]; [left | right; reflexivity].
    exists buffer. cbn. repeat split. exact Hct. }
  destruct (RouteFacts.imageContentType_cases DEFAULT_IMAGE_WIDTH DEFAULT_IMAGE_HEIGHT
              screens req) as [[_ Hct] | [_ Hct]];
    cbv zeta in Hct, Hc;
    destruct (buildRecipeElement _) as [e | built];
    try (apply (Himg "image/bmp"); [right; reflexivity | exact Hc]);
    destruct (renderRecipeOutputs _) as [e | renders];
    try (apply (Himg "image/bmp"); [right; reflexivity | exact Hc]);
    destruct (Route.bufferOf _ renders) as [[|b bs]|];
    rewrite Hct in Hc;
    try (apply (Himg _ (or_introl eq_refl)); exact Hc);
    try (apply (Himg _ (or_intror eq_refl)); exact Hc);
    try (apply (Himg "image/png"); [left; reflexivity | left; eexists; exact Hc]);
    try (apply (Himg "image/bmp"); [right; reflexivity | left; eexists; exact Hc]).
Qed.



(** A recipe that cannot be built, asked for as PNG, is answered with the
    not-found screen as a bitmap. *)
Example GET_png_request_bmp_fallback :
  fst (Route.GET 800 480 sampleScreens unit (fun _ => inl (ErrorObj "no such recipe"))
         sampleRender sampleRequest emptyWorld)
  = Return (Route.mkHttpResponse 200 "image/bmp" (Some "2") (Route.Bytes [66; 77])).
Proof. vm_compute. reflexivity. Qed.

Example GET_console :
  console (snd (Route.GET 800 480 sampleScreens unit sampleBuild sampleRender
                  sampleRequest emptyWorld))
  = ["info: PNG request for: weather.png in 800x480 with 2 gray levels, rotate 90"
       ++ Route.degree].
Proof. vm_compute. reflexivity. Qed.

(* ------------------------------------------------------------------ *)
(** ** The settings of a request                                        *)
(* ------------------------------------------------------------------ *)

Example parseInt_ex :
  map Route.parseInt ["800"; "  42px"; "-5"; "+7"; "4.9"; "abc"; ""; "0"]
  = [Some 800; Some 42; Some (-5); Some 7; Some 4; None; None; Some 0].
Proof. vm_compute. reflexivity. Qed.




(* ------------------------------------------------------------------ *)
(** ** The extension of the path                                        *)
(* ------------------------------------------------------------------ *)

Lemma eqb_longer c s t :
  (String.length t <= String.length s)%nat -> String.eqb (String c s) t = false.
Proof.
  intros H. apply String.eqb_neq. intros E. rewrite <- E in H. cbn in H. lia.
Qed.

Lemma endsWith_suffix suffix base : Route.endsWith suffix (base ++ suffix) = true.
Proof.
  induction base as [|c base IH].
  - cbn [append]. destruct suffix; cbn [Route.endsWith]; rewrite String.eqb_refl;
      reflexivity.
  - cbn [append Route.endsWith]. rewrite IH. apply orb_true_r.
Qed.

Lemma endsWith_other_extension base :
  Route.endsWith ".png" (base ++ ".bmp") = false.
Proof.
  induction base as [|c base IH]; [reflexivity|].
  cbn [append Route.endsWith]. rewrite IH.
  rewrite eqb_longer; [reflexivity|].
  rewrite JsDateFacts.length_append. cbn. lia.
Qed.

Lemma stripImageExtension_suffix base ext :
  ext = ".png" \/ ext = ".bmp" -> Route.stripImageExtension (base ++ ext) = base.
Proof.
  intros Hext. induction base as [|c base IH].
  - destruct Hext as [-> | ->]; reflexivity.
  - cbn [append Route.stripImageExtension].
    rewrite !eqb_longer, IH; [reflexivity | |];
      rewrite JsDateFacts.length_append; destruct Hext as [-> | ->]; cbn; lia.
Qed.

Lemma stripImageExtension_none s :
  Route.endsWith ".png" s = false -> Route.endsWith ".bmp" s = false ->
  Route.stripImageExtension s = s.
Proof.
  induction s as [|c s IH]; intros Hp Hb; [reflexivity|].
  cbn [Route.endsWith] in Hp, Hb.
  apply orb_false_iff in Hp, Hb. destruct Hp as [Hp1 Hp2], Hb as [Hb1 Hb2].
  cbn [Route.stripImageExtension]. rewrite Hp1, Hb1. cbn [orb].
  rewrite (IH Hp2 Hb2). reflexivity.
Qed.

(** X19. The extension of the requested path decides the format: a path
    [base.png] is rendered as PNG, sent as [image/png], for the recipe [base];
    a path [base.bmp], and likewise a path with neither extension, is
    rendered as bitmap and sent as [image/bmp], for the recipe [base],
    respectively for the path itself. *)
Theorem path_extension_decides_format DEFAULT_IMAGE_WIDTH DEFAULT_IMAGE_HEIGHT screens
  req base :
  let s := Route.settingsOf DEFAULT_IMAGE_WIDTH DEFAULT_IMAGE_HEIGHT screens req in
  (Route.bitmapPath s = base ++ ".png" ->
   Route.format s = Route.Png /\ Route.imageContentType s = "image/png"
   /\ Route.recipeSlug s = base)
  /\ (Route.bitmapPath s = base ++ ".bmp" ->
      Route.format s = Route.Bitmap /\ Route.imageContentType s = "image/bmp"
      /\ Route.recipeSlug s = base)
  /\ (Route.endsWith ".png" (Route.bitmapPath s) = false ->
      Route.endsWith ".bmp" (Route.bitmapPath s) = false ->
      Route.format s = Route.Bitmap /\ Route.imageContentType s = "image/bmp"
      /\ Route.recipeSlug s = Route.bitmapPath s).
Proof.
  cbv zeta. unfold Route.settingsOf.
  cbn [Route.bitmapPath Route.format Route.imageContentType Route.recipeSlug].
  set (path := String.concat "/" _). clearbody path. repeat apply conj.
  - intros ->. rewrite endsWith_suffix.
    rewrite stripImageExtension_suffix by (left; reflexivity). auto.
  - intros ->. rewrite endsWith_other_extension.
    rewrite stripImageExtension_suffix by (right; reflexivity). auto.
  - intros Hp Hb. rewrite Hp. rewrite (stripImageExtension_none path Hp Hb). auto.
Qed.

Lemma path_extension_decides_format_witness :
  Route.bitmapPath (Route.settingsOf 800 480 sampleScreens sampleRequest)
  = "weather" ++ ".png"
  /\ Route.format (Route.settingsOf 800 480 sampleScreens sampleRequest) = Route.Png
  /\ Route.imageContentType (Route.settingsOf 800 480 sampleScreens sampleRequest)
     = "image/png"
  /\ Route.recipeSlug (Route.settingsOf 800 480 sampleScreens sampleRequest) = "weather".
Proof.
  split; [reflexivity|].
  exact (proj1 (path_extension_decides_format 800 480 sampleScreens sampleRequest "weather")
               eq_refl).
Defined.

Example settingsOf_nested_path :
  let s := Route.settingsOf 800 480 sampleScreens
             (Route.mkRouteRequest (Some ["tailwind"; "demo.png.bmp"]) None None None
                                   (Some "0")) in
  (Route.bitmapPath s, Route.format s, Route.recipeSlug s, Route.recipeId s,
   Route.rotateAngle s)
  = ("tailwind/demo.png.bmp", Route.Bitmap, "tailwind/demo.png", "simple-text", Some 0).
Proof. vm_compute. reflexivity. Qed.

(* ================================================================== *)
(** * From the week filter to the columns                               *)
(* ================================================================== *)

Lemma parseEventDate_not_date_only tza DateParse s :
  matchesDateOnly s = false -> parseEventDate tza DateParse s = DateParse s.
Proof.
  intros H. unfold parseEventDate. rewrite H. rewrite andb_false_r. reflexivity.
Qed.

Lemma startsInWeek_of_instant tza DateParse now event t :
  parseEventDate tza DateParse (start event) = Some t ->
  weekStartOf tza now <= t < weekStartOf tza now + 7 * JsDate.msPerDay ->
  startsInWeek tza DateParse (weekStartOf tza now) event = true.
Proof.
  intros Hp Ht. unfold startsInWeek. rewrite Hp.
  pose proof (WeekBoundsFacts.weekStartOf_local tza now) as Hl.
  set (m := JsDate.Day (JsDate.LocalTime tza now) - daysBack (JsDate.getDay tza now)) in *.
  clearbody m.
  assert (Hm : JsDate.Day (JsDate.LocalTime tza (weekStartOf tza now)) = m).
  { rewrite Hl. unfold JsDate.Day. apply Z.div_mul.
    rewrite JsDateFacts.msPerDay_eq. lia. }
  rewrite Hm.
  assert (Hj : 0 <= JsDate.Day (JsDate.LocalTime tza t) - m <= 6).
  { rewrite JsDateFacts.LocalTime_eq in *. rewrite JsDateFacts.msPerDay_eq in *.
    unfold JsDate.Day. change JsDate.msPerDay with 86400000.
    apply Day_between. lia. }
  apply andb_true_iff. split; [apply Z.leb_le | apply Z.ltb_lt]; lia.
Qed.

(** X20. From [getData] to the grid: an event that the week filter keeps,
    whose start is a date-time (not a bare [YYYY-MM-DD]) less than seven days
    after the start of the window, is listed in exactly one of the seven
    columns of the week that begins at the window's start, given a [Date]
    constructor that reads the lower bound back. *)
Theorem kept_events_are_shown tza DateParse now evs event :
  DateParse (timeMin (weekBoundsAt tza now)) = Some (weekStartOf tza now) ->
  In event (filterToWeek DateParse (weekBoundsAt tza now) evs) ->
  matchesDateOnly (start event) = false ->
  (forall t, DateParse (start event) = Some t ->
             t < weekStartOf tza now + 7 * JsDate.msPerDay) ->
  List.length (filter (isSameDay tza (parseEventDate tza DateParse (start event)))
                      (weekDays tza (Some (weekStartOf tza now)))) = 1%nat.
Proof.
  intros Hmin Hin Hd Hlt.
  apply filterToWeek_In in Hin.
  destruct Hin as (_ & ws & we & t & H1 & _ & H3 & H4).
  rewrite Hmin in H1. injection H1 as <-.
  rewrite columns_of_event.
  rewrite (startsInWeek_of_instant tza DateParse now event t); [reflexivity | |].
  - rewrite parseEventDate_not_date_only by exact Hd. exact H3.
  - split; [lia | exact (Hlt t H3)].
Qed.

Lemma kept_events_are_shown_witness :
  let e := timedEvent "2024-01-03T09:00:00Z" "2024-01-03T10:00:00Z" in
  IsoDate.parse 0 (timeMin (weekBoundsAt 0 wednesdayNoon)) = Some (weekStartOf 0 wednesdayNoon)
  /\ In e (filterToWeek (IsoDate.parse 0) (weekBoundsAt 0 wednesdayNoon) [e])
  /\ matchesDateOnly (start e) = false
  /\ List.length (filter (isSameDay 0 (parseEventDate 0 (IsoDate.parse 0) (start e)))
                         (weekDays 0 (Some (weekStartOf 0 wednesdayNoon)))) = 1%nat.
Proof.
  intros e.
  assert (H1 : IsoDate.parse 0 (timeMin (weekBoundsAt 0 wednesdayNoon))
               = Some (weekStartOf 0 wednesdayNoon)) by (vm_compute; reflexivity).
  assert (H2 : In e (filterToWeek (IsoDate.parse 0) (weekBoundsAt 0 wednesdayNoon) [e]))
    by (vm_compute; left; reflexivity).
  assert (H3 : matchesDateOnly (start e) = false) by (vm_compute; reflexivity).
  assert (H4 : forall t, IsoDate.parse 0 (start e) = Some t ->
                         t < weekStartOf 0 wednesdayNoon + 7 * JsDate.msPerDay).
  { intros t Ht. vm_compute in Ht. injection Ht as <-. vm_compute. reflexivity. }
  split; [exact H1|]. split; [exact H2|]. split; [exact H3|].
  exact (kept_events_are_shown 0 (IsoDate.parse 0) wednesdayNoon [e] e H1 H2 H3 H4).
Defined.

(** An event on the Monday after the week passes the filter, whose upper
    bound is the end of that Monday, and is listed in no column. *)
Example next_monday_kept_not_shown :
  let e := timedEvent "2024-01-08T09:00:00Z" "2024-01-08T10:00:00Z" in
  filterToWeek (IsoDate.parse 0) (weekBoundsAt 0 wednesdayNoon) [e] = [e]
  /\ flat_map (getEventsForDay 0 (IsoDate.parse 0) [e])
              (weekDays 0 (Some (weekStartOf 0 wednesdayNoon))) = [].
Proof. split; vm_compute; reflexivity. Qed.
